(** * tupas.b02k: verification of the TUPAS B02K callback signature

    A shallow embedding of [tupas/b02k.py] together with the parts of the
    Python standard library it calls ([str] methods, [hashlib.sha256],
    [urllib.parse]), and the properties of the protocol proved over it.

    Modelling conventions.

    - A Python [str] is modelled by the byte string of its UTF-8 encoding
      (a Rocq [string]); [str.encode()] is then the list of these bytes.
      Text holding lone surrogates has no UTF-8 encoding and is outside the
      model.  Every character the program inspects ([' '], ['&'], ['='],
      ['%'], ['+'], ['?'], ['#'], ...) is ASCII, and an ASCII byte never
      occurs inside a multi-byte UTF-8 sequence, so searching and splitting
      on bytes is searching and splitting on characters.
    - A Python [dict] is an association list in insertion order, which is
      the order [dict.items()] yields (it decides which duplicate key
      [get_qs_dict] reports).
    - A raised exception is the [Raise] result; [Ok] is a normal return.
    - The library behaviour that needs the Unicode character database or the
      [ipaddress] module is a field of the class [Platform]; every general
      theorem holds for all platforms. *)

From Stdlib Require Import ZArith List String Ascii Bool Lia.
Import ListNotations.

Local Open Scope string_scope.
Local Open Scope Z_scope.

(** ** Python values *)

Definition str : Type := string.
Definition bytes : Type := list Z.

Inductive exception : Type :=
| ValueError (msg : str)                (* library code, tuple unpacking *)
| ValueError_values (v : list str)      (* [raise ValueError(v)] in get_qs_dict *)
| TypeError_missing (names : list str)  (* call with required arguments missing *)
| TypeError_unexpected (name : str)     (* call with an unknown keyword *)
| KeyError (key : str).

Inductive result (A : Type) : Type :=
| Ok (a : A)
| Raise (e : exception).

Arguments Ok {A} a.
Arguments Raise {A} e.

Definition bind {A B : Type} (c : result A) (k : A -> result B) : result B :=
  match c with
  | Ok a => k a
  | Raise e => Raise e
  end.

Notation "x <- c ;; k" := (bind c (fun x => k))
  (at level 61, c at next level, right associativity).

(** What the standard library computes from tables this development does not
    carry.  [title_unicode] is [str.title] on text with non-ASCII characters;
    [checknetloc_nfkc] and [check_bracketed_netloc] give the message of the
    [ValueError] that [urllib.parse._checknetloc] (on a non-ASCII netloc) and
    [urllib.parse._check_bracketed_netloc] raise, if they raise. *)
Class Platform : Type := {
  title_unicode : str -> str;
  checknetloc_nfkc : str -> option str;
  check_bracketed_netloc : str -> option str
}.

(** ** dict *)

Definition dict (V : Type) : Type := list (str * V).

Fixpoint dict_get {V : Type} (k : str) (d : dict V) : option V :=
  match d with
  | [] => None
  | (k', v) :: rest => if String.eqb k' k then Some v else dict_get k rest
  end.

(** [d[k] = v]: an existing key keeps its position. *)
Fixpoint dict_set {V : Type} (k : str) (v : V) (d : dict V) : dict V :=
  match d with
  | [] => [(k, v)]
  | (k', v') :: rest =>
      if String.eqb k' k then (k', v) :: rest else (k', v') :: dict_set k v rest
  end.

Definition dict_del {V : Type} (k : str) (d : dict V) : dict V :=
  filter (fun kv => negb (String.eqb (fst kv) k)) d.

Definition dict_keys {V : Type} (d : dict V) : list str := map fst d.

(** ** str methods *)

Module Str.

Definition code (c : ascii) : Z := Z.of_N (N_of_ascii c).
Definition chr (b : Z) : ascii := ascii_of_N (Z.to_N b).

Definition encode (s : str) : bytes := map code (list_ascii_of_string s).
Definition of_bytes (b : bytes) : str := string_of_list_ascii (map chr b).

Definition isascii (c : ascii) : bool := code c <? 128.
Definition isupper (c : ascii) : bool := (65 <=? code c) && (code c <=? 90).
Definition islower (c : ascii) : bool := (97 <=? code c) && (code c <=? 122).
Definition isalpha (c : ascii) : bool := isupper c || islower c.
Definition isdigit (c : ascii) : bool := (48 <=? code c) && (code c <=? 57).

Definition lower_char (c : ascii) : ascii :=
  if isupper c then chr (code c + 32) else c.
Definition upper_char (c : ascii) : ascii :=
  if islower c then chr (code c - 32) else c.

Fixpoint all (p : ascii -> bool) (s : str) : bool :=
  match s with
  | EmptyString => true
  | String c r => p c && all p r
  end.

Fixpoint map_chars (f : ascii -> ascii) (s : str) : str :=
  match s with
  | EmptyString => EmptyString
  | String c r => String (f c) (map_chars f r)
  end.

(** [c in s] *)
Fixpoint contains (c : ascii) (s : str) : bool :=
  match s with
  | EmptyString => false
  | String a r => Ascii.eqb a c || contains c r
  end.

(** The text before and after the first [c]: [(s[:i], s[i+1:])] for
    [i = s.find(c)], when [c] occurs. *)
Fixpoint partition (c : ascii) (s : str) : option (str * str) :=
  match s with
  | EmptyString => None
  | String a r =>
      if Ascii.eqb a c then Some (EmptyString, r)
      else match partition c r with
           | Some (h, t) => Some (String a h, t)
           | None => None
           end
  end.

(** The same around the last [c] ([i = s.rfind(c)]). *)
Fixpoint rpartition (c : ascii) (s : str) : option (str * str) :=
  match s with
  | EmptyString => None
  | String a r =>
      match rpartition c r with
      | Some (h, t) => Some (String a h, t)
      | None => if Ascii.eqb a c then Some (EmptyString, r) else None
      end
  end.

(** [s.split(c, 1)] *)
Definition split_max1 (c : ascii) (s : str) : list str :=
  match partition c s with
  | Some (h, t) => [h; t]
  | None => [s]
  end.

(** [s.split(c)] *)
Fixpoint split (c : ascii) (s : str) : list str :=
  match s with
  | EmptyString => [EmptyString]
  | String a r =>
      if Ascii.eqb a c then EmptyString :: split c r
      else match split c r with
           | h :: t => String a h :: t
           | [] => [String a EmptyString]
           end
  end.

(** [s.replace(c, c')] for single characters, and [s.replace(c, '')]. *)
Definition replace (c c' : ascii) (s : str) : str :=
  map_chars (fun a => if Ascii.eqb a c then c' else a) s.

Fixpoint remove (c : ascii) (s : str) : str :=
  match s with
  | EmptyString => EmptyString
  | String a r => if Ascii.eqb a c then remove c r else String a (remove c r)
  end.

(** [s.lstrip(chars)] for the set of characters satisfying [p]. *)
Fixpoint lstrip (p : ascii -> bool) (s : str) : str :=
  match s with
  | EmptyString => EmptyString
  | String a r => if p a then lstrip p r else s
  end.

(** [sep.join(l)] *)
Fixpoint join (sep : str) (l : list str) : str :=
  match l with
  | [] => EmptyString
  | [x] => x
  | x :: rest => x ++ sep ++ join sep rest
  end.

(** [s[:-1]] *)
Fixpoint drop_last (s : str) : str :=
  match s with
  | EmptyString => EmptyString
  | String a EmptyString => EmptyString
  | String a r => String a (drop_last r)
  end.

(** [str.upper] and [str.lower] on ASCII text.  The program applies them to
    the output of [hexdigest] and to a URL scheme, which are ASCII. *)
Definition upper (s : str) : str := map_chars upper_char s.
Definition lower (s : str) : str := map_chars lower_char s.

(** [str.title] on ASCII text: a character that follows a cased character
    is lower-cased, any other is title-cased; the cased ASCII characters are
    the letters. *)
Fixpoint title_from (previous_is_cased : bool) (s : str) : str :=
  match s with
  | EmptyString => EmptyString
  | String c r =>
      String (if previous_is_cased then lower_char c else upper_char c)
             (title_from (isalpha c) r)
  end.

Definition title_ascii (s : str) : str := title_from false s.

Definition title {P : Platform} (s : str) : str :=
  if all isascii s then title_ascii s else title_unicode s.

End Str.

(** ** hashlib.sha256 (FIPS 180-4), on 32-bit words held in [Z] *)

Module hashlib.

Definition w32 (x : Z) : Z := x mod 2 ^ 32.
Definition add32 (x y : Z) : Z := w32 (x + y).
Definition not32 (x : Z) : Z := Z.lxor x 0xffffffff.
Definition rotr (n x : Z) : Z :=
  Z.lor (Z.shiftr x n) (w32 (Z.shiftl x (32 - n))).

Definition Ch (x y z : Z) : Z := Z.lxor (Z.land x y) (Z.land (not32 x) z).
Definition Maj (x y z : Z) : Z :=
  Z.lxor (Z.lxor (Z.land x y) (Z.land x z)) (Z.land y z).
Definition Sigma0 (x : Z) : Z :=
  Z.lxor (Z.lxor (rotr 2 x) (rotr 13 x)) (rotr 22 x).
Definition Sigma1 (x : Z) : Z :=
  Z.lxor (Z.lxor (rotr 6 x) (rotr 11 x)) (rotr 25 x).
Definition sigma0 (x : Z) : Z :=
  Z.lxor (Z.lxor (rotr 7 x) (rotr 18 x)) (Z.shiftr x 3).
Definition sigma1 (x : Z) : Z :=
  Z.lxor (Z.lxor (rotr 17 x) (rotr 19 x)) (Z.shiftr x 10).

Definition K : list Z :=
  [0x428A2F98; 0x71374491; 0xB5C0FBCF; 0xE9B5DBA5;
   0x3956C25B; 0x59F111F1; 0x923F82A4; 0xAB1C5ED5;
   0xD807AA98; 0x12835B01; 0x243185BE; 0x550C7DC3;
   0x72BE5D74; 0x80DEB1FE; 0x9BDC06A7; 0xC19BF174;
   0xE49B69C1; 0xEFBE4786; 0x0FC19DC6; 0x240CA1CC;
   0x2DE92C6F; 0x4A7484AA; 0x5CB0A9DC; 0x76F988DA;
   0x983E5152; 0xA831C66D; 0xB00327C8; 0xBF597FC7;
   0xC6E00BF3; 0xD5A79147; 0x06CA6351; 0x14292967;
   0x27B70A85; 0x2E1B2138; 0x4D2C6DFC; 0x53380D13;
   0x650A7354; 0x766A0ABB; 0x81C2C92E; 0x92722C85;
   0xA2BFE8A1; 0xA81A664B; 0xC24B8B70; 0xC76C51A3;
   0xD192E819; 0xD6990624; 0xF40E3585; 0x106AA070;
   0x19A4C116; 0x1E376C08; 0x2748774C; 0x34B0BCB5;
   0x391C0CB3; 0x4ED8AA4A; 0x5B9CCA4F; 0x682E6FF3;
   0x748F82EE; 0x78A5636F; 0x84C87814; 0x8CC70208;
   0x90BEFFFA; 0xA4506CEB; 0xBEF9A3F7; 0xC67178F2].

Definition H0 : list Z :=
  [0x6A09E667; 0xBB67AE85; 0x3C6EF372; 0xA54FF53A;
   0x510E527F; 0x9B05688C; 0x1F83D9AB; 0x5BE0CD19].

(** The [n] low-order bytes of [x], most significant first. *)
Fixpoint be_bytes (n : nat) (x : Z) : bytes :=
  match n with
  | O => []
  | S n' => Z.shiftr x (8 * Z.of_nat n') mod 256 :: be_bytes n' x
  end.

(** The message, a 1 bit, zero bits up to 448 mod 512, the bit length on 64
    bits. *)
Definition pad (m : bytes) : bytes :=
  let l := Z.of_nat (List.length m) in
  (m ++ [0x80] ++ repeat 0 (Z.to_nat ((55 - l) mod 64)) ++ be_bytes 8 (8 * l))%list.

Fixpoint words (n : nat) (b : bytes) : list Z :=
  match n, b with
  | S n', b0 :: b1 :: b2 :: b3 :: rest =>
      (Z.shiftl b0 24 + Z.shiftl b1 16 + Z.shiftl b2 8 + b3) :: words n' rest
  | _, _ => []
  end.

(** Message schedule: [w] is the window of the last sixteen words, oldest
    first; each new word is
    [sigma1 W(t-2) + W(t-7) + sigma0 W(t-15) + W(t-16)]. *)
Fixpoint schedule (n : nat) (w : list Z) : list Z :=
  match n, w with
  | S n', w0 :: rest =>
      let t := add32 (add32 (sigma1 (nth 13 rest 0)) (nth 8 rest 0))
                     (add32 (sigma0 (nth 0 rest 0)) w0) in
      t :: schedule n' (rest ++ [t])%list
  | _, _ => []
  end.

Definition round (s : list Z) (kw : Z * Z) : list Z :=
  match s with
  | [a; b; c; d; e; f; g; h] =>
      let t1 := add32 (add32 (add32 h (Sigma1 e)) (add32 (Ch e f g) (fst kw)))
                      (snd kw) in
      let t2 := add32 (Sigma0 a) (Maj a b c) in
      [add32 t1 t2; a; b; c; add32 d t1; e; f; g]
  | _ => s
  end.

Definition compress (h : list Z) (block : bytes) : list Z :=
  let w16 := words 16 block in
  let w := (w16 ++ schedule 48 w16)%list in
  map (fun p => add32 (fst p) (snd p))
      (combine h (fold_left round (combine K w) h)).

Fixpoint blocks (n : nat) (h : list Z) (b : bytes) : list Z :=
  match n with
  | O => h
  | S n' => blocks n' (compress h (firstn 64 b)) (skipn 64 b)
  end.

Definition sha256 (m : bytes) : bytes :=
  let p := pad m in
  flat_map (be_bytes 4) (blocks (Nat.div (List.length p) 64) H0 p).

Definition hexdigit (x : Z) : ascii :=
  Str.chr (if x <? 10 then 48 + x else 87 + x).

Fixpoint hex (b : bytes) : str :=
  match b with
  | [] => EmptyString
  | x :: rest =>
      String (hexdigit (x / 16)) (String (hexdigit (x mod 16)) (hex rest))
  end.

(** [hashlib.sha256(m).hexdigest()] *)
Definition hexdigest (m : bytes) : str := hex (sha256 m).

End hashlib.

(** ** urllib.parse (CPython 3.11) *)

Module urllib.

(** *** [bytes.decode('utf-8', 'replace')]

    The decoder reads well-formed UTF-8 sequences; an ill-formed byte, or a
    sequence cut short by an unexpected byte or by the end of the input, is
    replaced as a whole by U+FFFD.  The result is again held as UTF-8. *)

Inductive utf8_state : Type :=
| Start
| Pending (seen : bytes) (need : nat) (lo hi : Z).

Definition replacement : bytes := [0xEF; 0xBF; 0xBD].

Definition between (lo hi b : Z) : bool := (lo <=? b) && (b <=? hi).

(** For a lead byte: how many continuation bytes follow, and the range of the
    first of them. *)
Definition utf8_lead (b : Z) : option (nat * Z * Z) :=
  if between 0xC2 0xDF b then Some (1%nat, 0x80, 0xBF)
  else if b =? 0xE0 then Some (2%nat, 0xA0, 0xBF)
  else if b =? 0xED then Some (2%nat, 0x80, 0x9F)
  else if between 0xE1 0xEF b then Some (2%nat, 0x80, 0xBF)
  else if b =? 0xF0 then Some (3%nat, 0x90, 0xBF)
  else if between 0xF1 0xF3 b then Some (3%nat, 0x80, 0xBF)
  else if b =? 0xF4 then Some (3%nat, 0x80, 0x8F)
  else None.

Definition utf8_start (b : Z) : bytes * utf8_state :=
  if b <? 0x80 then ([b], Start)
  else match utf8_lead b with
       | Some (n, lo, hi) => ([], Pending [b] n lo hi)
       | None => (replacement, Start)
       end.

Definition utf8_step (st : utf8_state) (b : Z) : bytes * utf8_state :=
  match st with
  | Start => utf8_start b
  | Pending seen need lo hi =>
      if between lo hi b then
        match need with
        | S (S n) => ([], Pending (seen ++ [b])%list (S n) 0x80 0xBF)
        | _ => ((seen ++ [b])%list, Start)
        end
      else let (out, st') := utf8_start b in ((replacement ++ out)%list, st')
  end.

Fixpoint decode_from (st : utf8_state) (bs : bytes) : bytes :=
  match bs with
  | [] => match st with
          | Start => []
          | Pending _ _ _ _ => replacement
          end
  | b :: rest =>
      let (out, st') := utf8_step st b in (out ++ decode_from st' rest)%list
  end.

Definition decode_replace (bs : bytes) : str :=
  Str.of_bytes (decode_from Start bs).

(** *** unquote *)

(** [_hexdig = '0123456789ABCDEFabcdef'] *)
Definition ishex (c : ascii) : bool :=
  Str.isdigit c || between 65 70 (Str.code c) || between 97 102 (Str.code c).

Definition hexval (c : ascii) : Z :=
  let n := Str.code c in
  if Str.isdigit c then n - 48
  else if between 65 70 n then n - 55
  else n - 87.

(** One item of [string.split(b'%')] after the first: [_hextobyte[item[:2]]]
    and [item[2:]], or ['%'] and the item when the two characters are not
    hexadecimal digits. *)
Definition unquote_item (item : str) : bytes :=
  match item with
  | String a (String b rest) =>
      if ishex a && ishex b
      then (16 * hexval a + hexval b) :: Str.encode rest
      else Str.encode (String "%" item)
  | _ => Str.encode (String "%" item)
  end.

Definition unquote_to_bytes (s : str) : bytes :=
  match Str.split "%" s with
  | [] => []
  | first :: items => (Str.encode first ++ flat_map unquote_item items)%list
  end.

(** The loop of [unquote] over [_asciire.split(string)]: each maximal run of
    ASCII characters is unquoted to bytes and decoded, the text between the
    runs is kept.  [run] is the ASCII run read so far. *)
Fixpoint unquote_runs (run : str) (s : str) : str :=
  match s with
  | EmptyString => decode_replace (unquote_to_bytes run)
  | String c rest =>
      if Str.isascii c then unquote_runs (run ++ String c EmptyString) rest
      else decode_replace (unquote_to_bytes run)
           ++ String c (unquote_runs EmptyString rest)
  end.

Definition unquote (s : str) : str :=
  if negb (Str.contains "%" s) then s else unquote_runs EmptyString s.

(** *** parse_qsl, parse_qs
    with the defaults [keep_blank_values=False], [strict_parsing=False],
    [max_num_fields=None], [separator='&']. *)

Definition parse_field (name_value : str) : list (str * str) :=
  match Str.split_max1 "=" name_value with
  | [name; value] =>
      match value with
      | EmptyString => []
      | _ => [(unquote (Str.replace "+" " " name),
               unquote (Str.replace "+" " " value))]
      end
  | _ => []
  end.

Definition parse_qsl (qs : str) : list (str * str) :=
  let query_args := match qs with
                    | EmptyString => []
                    | _ => Str.split "&" qs
                    end in
  flat_map parse_field query_args.

Definition parse_qs_add (parsed_result : dict (list str)) (nv : str * str)
  : dict (list str) :=
  let (name, value) := nv in
  match dict_get name parsed_result with
  | Some l => dict_set name (l ++ [value])%list parsed_result
  | None => dict_set name [value] parsed_result
  end.

Definition parse_qs (qs : str) : dict (list str) :=
  fold_left parse_qs_add (parse_qsl qs) [].

(** *** quote, quote_plus, urlencode *)

(** [_ALWAYS_SAFE]: letters, digits and ['_.-~']. *)
Definition always_safe (c : ascii) : bool :=
  Str.isalpha c || Str.isdigit c
  || Ascii.eqb c "_" || Ascii.eqb c "." || Ascii.eqb c "-" || Ascii.eqb c "~".

Definition upper_hexdigit (x : Z) : ascii :=
  Str.chr (if x <? 10 then 48 + x else 55 + x).

(** [_Quoter]: [chr(b)] for a safe byte, ['%{:02X}'.format(b)] otherwise. *)
Definition quoter (safe : str) (c : ascii) : str :=
  if always_safe c || Str.contains c safe then String c EmptyString
  else String "%" (String (upper_hexdigit (Str.code c / 16))
                  (String (upper_hexdigit (Str.code c mod 16)) EmptyString)).

Fixpoint quote (safe : str) (s : str) : str :=
  match s with
  | EmptyString => EmptyString
  | String c rest => quoter safe c ++ quote safe rest
  end.

Definition quote_plus (s : str) : str :=
  if negb (Str.contains " " s) then quote EmptyString s
  else Str.replace " " "+" (quote " " s).

(** [urlencode(query)] for a dict of [str] keys and values. *)
Definition urlencode (query : dict str) : str :=
  Str.join "&" (map (fun kv => quote_plus (fst kv) ++ "=" ++ quote_plus (snd kv))
                    query).

(** *** urlsplit, urlparse *)

Record SplitResult : Type := mkSplitResult {
  split_scheme : str;
  split_netloc : str;
  split_path : str;
  split_query : str;
  split_fragment : str
}.

Record ParseResult : Type := mkParseResult {
  scheme : str;
  netloc : str;
  path : str;
  params : str;
  query : str;
  fragment : str
}.

Definition uses_params : list str :=
  [EmptyString; "ftp"; "hdl"; "prospero"; "http"; "imap"; "https"; "shttp";
   "rtsp"; "rtspu"; "sip"; "sips"; "mms"; "sftp"; "tel"].

Definition str_in (s : str) (l : list str) : bool :=
  existsb (String.eqb s) l.

(** [c in scheme_chars] *)
Definition scheme_char (c : ascii) : bool :=
  Str.isalpha c || Str.isdigit c
  || Ascii.eqb c "+" || Ascii.eqb c "-" || Ascii.eqb c ".".

(** [c in _WHATWG_C0_CONTROL_OR_SPACE] *)
Definition c0_control_or_space (c : ascii) : bool := Str.code c <=? 0x20.

(** The longest prefix without a character satisfying [p], and the rest. *)
Fixpoint span_until (p : ascii -> bool) (s : str) : str * str :=
  match s with
  | EmptyString => (EmptyString, EmptyString)
  | String c rest =>
      if p c then (EmptyString, s)
      else let (h, t) := span_until p rest in (String c h, t)
  end.

(** [_splitnetloc(url, 2)] for a [url] that starts with ['//']: the text up to
    the first of ['/'], ['?'], ['#'], and the text from there. *)
Definition _splitnetloc (url : str) : str * str :=
  match url with
  | String _ (String _ rest) =>
      span_until (fun c => Ascii.eqb c "/" || Ascii.eqb c "?" || Ascii.eqb c "#")
                 rest
  | _ => (EmptyString, EmptyString)
  end.

Definition raise_if {A : Type} (err : option str) (a : A) : result A :=
  match err with
  | Some msg => Raise (ValueError msg)
  | None => Ok a
  end.

Definition _checknetloc {P : Platform} (netloc : str) : result unit :=
  match netloc with
  | EmptyString => Ok tt
  | _ => if Str.all Str.isascii netloc then Ok tt
         else raise_if (checknetloc_nfkc netloc) tt
  end.

Definition split_scheme_of (url : str) : str * str :=
  match Str.partition ":" url with
  | Some (String c0 pre, rest) =>
      if Str.isascii c0 && Str.isalpha c0 && Str.all scheme_char (String c0 pre)
      then (Str.lower (String c0 pre), rest)
      else (EmptyString, url)
  | _ => (EmptyString, url)
  end.

Definition urlsplit {P : Platform} (url : str) : result SplitResult :=
  let url := Str.lstrip c0_control_or_space url in
  let url := Str.remove "010" (Str.remove "013" (Str.remove "009" url)) in
  let (scheme, url) := split_scheme_of url in
  nu <- (match url with
         | String "/" (String "/" _) =>
             let (netloc, rest) := _splitnetloc url in
             let lb := Str.contains "[" netloc in
             let rb := Str.contains "]" netloc in
             if (lb && negb rb) || (rb && negb lb)
             then Raise (ValueError "Invalid IPv6 URL")
             else if lb && rb
                  then raise_if (check_bracketed_netloc netloc) (netloc, rest)
                  else Ok (netloc, rest)
         | _ => Ok (EmptyString, url)
         end) ;;
  let (netloc, url) := nu : str * str in
  let (url, fragment) := match Str.partition "#" url with
                         | Some (h, t) => (h, t)
                         | None => (url, EmptyString)
                         end in
  let (url, query) := match Str.partition "?" url with
                      | Some (h, t) => (h, t)
                      | None => (url, EmptyString)
                      end in
  _ <- _checknetloc netloc ;;
  Ok (mkSplitResult scheme netloc url query fragment).

(** [_splitparams]: the parameters follow the first [';'] of the last path
    segment. *)
Definition _splitparams (url : str) : str * str :=
  match Str.rpartition "/" url with
  | Some (dir, last) =>
      match Str.partition ";" last with
      | Some (h, t) => (dir ++ String "/" h, t)
      | None => (url, EmptyString)
      end
  | None =>
      match Str.partition ";" url with
      | Some (h, t) => (h, t)
      | None => (Str.drop_last url, url)
      end
  end.

Definition urlparse {P : Platform} (url : str) : result ParseResult :=
  r <- urlsplit url ;;
  let (url, params) :=
    if str_in (split_scheme r) uses_params && Str.contains ";" (split_path r)
    then _splitparams (split_path r)
    else (split_path r, EmptyString) in
  Ok (mkParseResult (split_scheme r) (split_netloc r) url params
                    (split_query r) (split_fragment r)).

End urllib.

(** ** tupas/b02k.py *)

Definition B02K_MAC : str := "B02K_MAC".

Definition B02K_KEYS : list str :=
  ["B02K_VERS"; "B02K_TIMESTMP"; "B02K_IDNBR"; "B02K_STAMP"; "B02K_CUSTNAME";
   "B02K_KEYVERS"; "B02K_ALG"; "B02K_CUSTID"; "B02K_CUSTTYPE"].

Record B02KInfo : Type := mkB02KInfo {
  B02K_VERS : str;
  B02K_TIMESTMP : str;
  B02K_IDNBR : str;
  B02K_STAMP : str;
  B02K_CUSTNAME : str;
  B02K_KEYVERS : str;
  B02K_ALG : str;
  B02K_CUSTID : str;
  B02K_CUSTTYPE : str
}.

(** The field names of the named tuple, in declaration order. *)
Definition B02KInfo_fields : list str :=
  ["B02K_VERS"; "B02K_TIMESTMP"; "B02K_IDNBR"; "B02K_STAMP"; "B02K_CUSTNAME";
   "B02K_KEYVERS"; "B02K_ALG"; "B02K_CUSTID"; "B02K_CUSTTYPE"].

Definition absent {V : Type} (d : dict V) (k : str) : bool :=
  match dict_get k d with
  | Some _ => false
  | None => true
  end.

(** Binding the keyword arguments to the fields. *)
Definition B02KInfo_bind (kwargs : dict str) : result B02KInfo :=
  match dict_get "B02K_VERS" kwargs, dict_get "B02K_TIMESTMP" kwargs,
        dict_get "B02K_IDNBR" kwargs, dict_get "B02K_STAMP" kwargs,
        dict_get "B02K_CUSTNAME" kwargs, dict_get "B02K_KEYVERS" kwargs,
        dict_get "B02K_ALG" kwargs, dict_get "B02K_CUSTID" kwargs,
        dict_get "B02K_CUSTTYPE" kwargs with
  | Some vers, Some timestmp, Some idnbr, Some stamp, Some custname,
    Some keyvers, Some alg, Some custid, Some custtype =>
      Ok (mkB02KInfo vers timestmp idnbr stamp custname keyvers alg custid
                     custtype)
  | _, _, _, _, _, _, _, _, _ =>
      Raise (TypeError_missing (filter (absent kwargs) B02KInfo_fields))
  end.

(** [B02KInfo] called with the keyword arguments [kwargs]: a keyword that is
    not a field, or a field without a value, is a [TypeError]. *)
Definition B02KInfo_new (kwargs : dict str) : result B02KInfo :=
  match find (fun kv => negb (urllib.str_in (fst kv) B02KInfo_fields)) kwargs with
  | Some (k, _) => Raise (TypeError_unexpected k)
  | None => B02KInfo_bind kwargs
  end.

Definition declare_info (info : dict str) : result B02KInfo :=
  let params := filter (fun kv => urllib.str_in (fst kv) B02K_KEYS) info in
  B02KInfo_new params.

Definition calculate_signature (b02kinfo : B02KInfo) (secret : str) : str :=
  let raw := B02K_VERS b02kinfo ++ "&"
          ++ B02K_TIMESTMP b02kinfo ++ "&"
          ++ B02K_IDNBR b02kinfo ++ "&"
          ++ B02K_STAMP b02kinfo ++ "&"
          ++ B02K_CUSTNAME b02kinfo ++ "&"
          ++ B02K_KEYVERS b02kinfo ++ "&"
          ++ B02K_ALG b02kinfo ++ "&"
          ++ B02K_CUSTID b02kinfo ++ "&"
          ++ B02K_CUSTTYPE b02kinfo ++ "&"
          ++ secret ++ "&" in
  Str.upper (hashlib.hexdigest (Str.encode raw)).

(** The loop of [get_qs_dict] over [parse_qs(query).items()]. *)
Fixpoint get_qs_dict_loop (items : list (str * list str)) (qs : dict str)
  : result (dict str) :=
  match items with
  | [] => Ok qs
  | (k, v) :: rest =>
      match v with
      | [v0] => get_qs_dict_loop rest (dict_set k v0 qs)
      | _ => Raise (ValueError_values v)
      end
  end.

Definition get_qs_dict (query : str) : result (dict str) :=
  get_qs_dict_loop (urllib.parse_qs query) [].

Definition format_names {P : Platform} (fullname : str) : list str :=
  Str.split_max1 " " (Str.title fullname).

Definition build_success_hash (first last secret : str) : str :=
  let raw := "firstname=" ++ first ++ "&lastname=" ++ last ++ "#" ++ secret in
  hashlib.hexdigest (Str.encode raw).

(** [first, last = format_names(...)] unpacks a list of exactly two items. *)
Definition build_success_url {P : Platform} (b02kinfo : B02KInfo) (secret : str)
  : result str :=
  match format_names (B02K_CUSTNAME b02kinfo) with
  | [first; last] =>
      let signature := build_success_hash first last secret in
      let querystring := urllib.urlencode [("firstname", first);
                                           ("lastname", last);
                                           ("hash", signature)] in
      Ok ("?" ++ querystring)
  | [] => Raise (ValueError "not enough values to unpack (expected 2, got 0)")
  | [_] => Raise (ValueError "not enough values to unpack (expected 2, got 1)")
  | _ => Raise (ValueError "too many values to unpack (expected 2)")
  end.

(** [qs[key]] *)
Definition getitem (qs : dict str) (key : str) : result str :=
  match dict_get key qs with
  | Some v => Ok v
  | None => Raise (KeyError key)
  end.

Definition get_redirect_url {P : Platform}
  (url inputsecret outputsecret error_url : str) : result str :=
  parsed <- urllib.urlparse url ;;
  qs <- get_qs_dict (urllib.query parsed) ;;
  b02kinfo <- declare_info qs ;;
  let signature := calculate_signature b02kinfo inputsecret in
  mac <- getitem qs B02K_MAC ;;
  if String.eqb signature mac
  then build_success_url b02kinfo outputsecret
  else Ok error_url.

(** ** The fixtures of tests/test_tupas.py *)

(** A platform for running the program on ASCII input with an unbracketed
    host, where the three fields are never consulted. *)
Definition ascii_platform : Platform :=
  {| title_unicode := Str.title_ascii;
     checknetloc_nfkc := fun _ => None;
     check_bracketed_netloc := fun _ => None |}.

Definition B02KDICT : dict str :=
  [("B02K_VERS", "0003");
   ("B02K_TIMESTMP", "50020181017141433899056");
   ("B02K_IDNBR", "2512408990");
   ("B02K_STAMP", "20010125140015123456");
   ("B02K_CUSTNAME", "FIRST LAST");
   ("B02K_KEYVERS", "0001");
   ("B02K_ALG", "03");
   ("B02K_CUSTID", "9984");
   ("B02K_CUSTTYPE", "02")].

Definition B02KINFO : B02KInfo :=
  mkB02KInfo "0003" "50020181017141433899056" "2512408990"
             "20010125140015123456" "FIRST LAST" "0001" "03" "9984" "02".

Definition INPUT_SECRET : str := "inputsecret".
Definition OUTPUT_SECRET : str := "outputsecret".
Definition ERROR_URL : str := "/error/".

Definition SIGNATURE : str :=
  "EBA959A76B87AE8996849E7C0C08D4AC44B053183BE12C0DAC2AD0C86F9F2542".

Definition SUCCESS_REDIRECT_HASH : str :=
  "4f6536ca2a23592d9037a4707bb44980b9bd2d4250fc1c833812068ccb000712".

Definition VALID_URL : str :=
  "http://someserver.com/?B02K_VERS=0003&B02K_TIMESTMP=50020181017141433899056&B02K_IDNBR=2512408990&B02K_STAMP=20010125140015123456&B02K_CUSTNAME=FIRST%20LAST&B02K_KEYVERS=0001&B02K_ALG=03&B02K_CUSTID=9984&B02K_CUSTTYPE=02&B02K_MAC=EBA959A76B87AE8996849E7C0C08D4AC44B053183BE12C0DAC2AD0C86F9F2542".

Definition INVALID_URL : str :=
  "http://someserver.com/?B02K_VERS=0003&B02K_TIMESTMP=50020181017141433899056&B02K_IDNBR=2512408990&B02K_STAMP=20010125140015123456&B02K_CUSTNAME=FIRST%20LAST&B02K_KEYVERS=0001&B02K_ALG=03&B02K_CUSTID=9984&B02K_CUSTTYPE=02&B02K_MAC=INVALID_SIGNATURE".

Definition SUCCESS_URL : str :=
  "?firstname=First&lastname=Last&hash=4f6536ca2a23592d9037a4707bb44980b9bd2d4250fc1c833812068ccb000712".

Definition NON_ASCII_QUERYSTRING : str := "B02K_CUSTNAME=V%C4IN%D6%20M%C4KI".

(** ** Vocabulary of the properties *)

(** The values of a record in the protocol's field order. *)
Definition field_values (f : B02KInfo) : list str :=
  [B02K_VERS f; B02K_TIMESTMP f; B02K_IDNBR f; B02K_STAMP f; B02K_CUSTNAME f;
   B02K_KEYVERS f; B02K_ALG f; B02K_CUSTID f; B02K_CUSTTYPE f].

Fixpoint each_followed_by (sep : str) (l : list str) : str :=
  match l with
  | [] => EmptyString
  | x :: rest => x ++ sep ++ each_followed_by sep rest
  end.

(** The canonical string of the inbound signature as the specification
    words it: the nine values in order, each followed by the separator, then
    the secret followed by the separator. *)
Definition canonical_inbound (f : B02KInfo) (secret : str) : str :=
  each_followed_by "&" (field_values f) ++ secret ++ "&".

(** The canonical string of the outbound hash as the specification words
    it. *)
Definition canonical_outbound (first last secret : str) : str :=
  "firstname=" ++ first ++ "&lastname=" ++ last ++ "#" ++ secret.

(** A byte value. *)
Definition byte_range (b : Z) : Prop := 0 <= b < 256.

Definition lower_hex_char (c : ascii) : bool :=
  Str.isdigit c || urllib.between 97 102 (Str.code c).
Definition upper_hex_char (c : ascii) : bool :=
  Str.isdigit c || urllib.between 65 70 (Str.code c).

(** The decoded mapping [qs] holds the nine fields of [f]. *)
Definition carries (qs : dict str) (f : B02KInfo) : Prop :=
  map (fun k => dict_get k qs) B02K_KEYS = map Some (field_values f).

(** [qs] is what [get_qs_dict] returns on the query component of [url]. *)
Definition decoded_query {P : Platform} (url : str) (qs : dict str) : Prop :=
  exists parsed, urllib.urlparse url = Ok parsed
                 /\ get_qs_dict (urllib.query parsed) = Ok qs.

(** The call on [url] reaches the comparison of the signatures, with the
    projected record [f] and the received signature [mac]. *)
Definition reaches_comparison {P : Platform} (url : str) (f : B02KInfo)
  (mac : str) : Prop :=
  exists qs, decoded_query url qs /\ declare_info qs = Ok f
             /\ dict_get B02K_MAC qs = Some mac.

(** The values decoded for the key [k], in order of appearance. *)
Definition values_of (k : str) (pairs : list (str * str)) : list str :=
  map snd (filter (fun nv => String.eqb (fst nv) k) pairs).

(** The characters that [quote] writes when [safe] is empty or a space. *)
Definition quoted_char (c : ascii) : bool :=
  urllib.always_safe c || Ascii.eqb c "%" || Ascii.eqb c " ".

(** The characters that [quote_plus] writes, and those of a query string
    written by [urlencode]. *)
Definition urlencoded_char (c : ascii) : bool :=
  urllib.always_safe c || Ascii.eqb c "%" || Ascii.eqb c "+".

Definition query_char (c : ascii) : bool :=
  urlencoded_char c || Ascii.eqb c "&" || Ascii.eqb c "=".

(** One field of the query string that [urlencode] writes. *)
Definition urlencode_field (kv : str * str) : str :=
  urllib.quote_plus (fst kv) ++ "=" ++ urllib.quote_plus (snd kv).

(** Text in the sense of the modelling convention: a byte string that is
    well-formed UTF-8, which the decoder returns unchanged. *)
Definition utf8_text (s : str) : Prop :=
  urllib.decode_replace (Str.encode s) = s.

(** A field value that the query string can carry: non-empty text. *)
Definition carried_value (s : str) : Prop :=
  s <> EmptyString /\ utf8_text s.

(** A query string that carries the nine fields of [f] and its signature
    under [secret], written with [urlencode], and a URL with that query. *)
Definition signed_query (f : B02KInfo) (secret : str) : str :=
  urllib.urlencode (combine B02K_KEYS (field_values f)
                    ++ [(B02K_MAC, calculate_signature f secret)])%list.

Definition signed_url (f : B02KInfo) (secret : str) : str :=
  "http://someserver.com/?" ++ signed_query f secret.

(** The fixture record with an empty customer identifier, with a one-word
    customer name, and the fixture URL with that name. *)
Definition BLANK_CUSTID_INFO : B02KInfo :=
  mkB02KInfo "0003" "50020181017141433899056" "2512408990"
             "20010125140015123456" "FIRST LAST" "0001" "03" EmptyString "02".

Definition ONE_NAME_INFO : B02KInfo :=
  mkB02KInfo "0003" "50020181017141433899056" "2512408990"
             "20010125140015123456" "FIRST" "0001" "03" "9984" "02".

Definition NO_MAC_URL : str :=
  "http://someserver.com/?B02K_VERS=0003&B02K_TIMESTMP=50020181017141433899056&B02K_IDNBR=2512408990&B02K_STAMP=20010125140015123456&B02K_CUSTNAME=FIRST%20LAST&B02K_KEYVERS=0001&B02K_ALG=03&B02K_CUSTID=9984&B02K_CUSTTYPE=02".

Definition NO_QUERY_URL : str := "http://someserver.com/".

Definition ONE_NAME_URL : str :=
  "http://someserver.com/?B02K_VERS=0003&B02K_TIMESTMP=50020181017141433899056&B02K_IDNBR=2512408990&B02K_STAMP=20010125140015123456&B02K_CUSTNAME=FIRST&B02K_KEYVERS=0001&B02K_ALG=03&B02K_CUSTID=9984&B02K_CUSTTYPE=02&B02K_MAC=0829F417B8962597E069EBA0659F85BDBE2BA878EDB231512E069FE8BBD85239".

(** The mapping decoded from the query of [VALID_URL]. *)
Definition VALID_QS : dict str :=
  (B02KDICT ++ [("B02K_MAC", SIGNATURE)])%list.

(** ** Vocabulary of the further properties *)

(** A pair whose value is not the empty string. *)
Definition nonblank (kv : str * str) : bool :=
  negb (String.eqb (snd kv) EmptyString).

(** A mapping whose keys and values are text. *)
Definition text_items (d : dict str) : Prop :=
  Forall (fun kv => utf8_text (fst kv) /\ utf8_text (snd kv)) d.

(** The fixture query under another address, with its fields in another
    order, one more parameter and a fragment. *)
Definition REORDERED_URL : str :=
  "https://other.example/callback?B02K_MAC=EBA959A76B87AE8996849E7C0C08D4AC44B053183BE12C0DAC2AD0C86F9F2542&utm=1&B02K_CUSTTYPE=02&B02K_CUSTID=9984&B02K_ALG=03&B02K_KEYVERS=0001&B02K_CUSTNAME=FIRST+LAST&B02K_STAMP=20010125140015123456&B02K_IDNBR=2512408990&B02K_TIMESTMP=50020181017141433899056&B02K_VERS=0003#top".

Definition REORDERED_QS : dict str :=
  [("B02K_MAC", SIGNATURE); ("utm", "1"); ("B02K_CUSTTYPE", "02");
   ("B02K_CUSTID", "9984"); ("B02K_ALG", "03"); ("B02K_KEYVERS", "0001");
   ("B02K_CUSTNAME", "FIRST LAST"); ("B02K_STAMP", "20010125140015123456");
   ("B02K_IDNBR", "2512408990"); ("B02K_TIMESTMP", "50020181017141433899056");
   ("B02K_VERS", "0003")].




(** The items of a record as a mapping, in the order of [B02K_KEYS]. *)
Definition record_items (f : B02KInfo) : dict str :=
  combine B02K_KEYS (field_values f).

(** Two records that differ by a piece moved from the customer name to the
    key version. *)
Definition SHIFTED_FROM : B02KInfo :=
  mkB02KInfo "0003" "50020181017141433899056" "2512408990"
             "20010125140015123456" "FIRST LAST&X" "0001" "03" "9984" "02".

Definition SHIFTED_TO : B02KInfo :=
  mkB02KInfo "0003" "50020181017141433899056" "2512408990"
             "20010125140015123456" "FIRST LAST" "X&0001" "03" "9984" "02".

(** The mapping that [signed_query] writes: the items of the record, then
    the signature under the signature key. *)
Definition signed_items (f : B02KInfo) (secret : str) : dict str :=
  (record_items f ++ [(B02K_MAC, calculate_signature f secret)])%list.
(** * Properties *)

(** ** dict *)

Section DictFacts.
Context {V : Type}.
Implicit Types (d : dict V) (k : str).

Lemma dict_get_set d k k' (v : V) :
  dict_get k' (dict_set k v d) = if String.eqb k k' then Some v else dict_get k' d.
Proof.
  induction d as [|[k0 v0] d IH]; simpl.
  - reflexivity.
  - destruct (String.eqb k0 k) eqn:E0; simpl.
    + apply String.eqb_eq in E0; subst k0.
      destruct (String.eqb k k'); reflexivity.
    + destruct (String.eqb k0 k') eqn:E1.
      * apply String.eqb_eq in E1; subst k0. rewrite String.eqb_sym, E0.
        reflexivity.
      * exact IH.
Qed.

Lemma dict_get_filter_keys (p : str -> bool) d k :
  p k = true ->
  dict_get k (filter (fun kv => p (fst kv)) d) = dict_get k d.
Proof.
  intros Hp. induction d as [|[k0 v0] d IH]; simpl; [reflexivity|].
  destruct (p k0) eqn:E0; simpl.
  - rewrite IH. reflexivity.
  - destruct (String.eqb k0 k) eqn:E1; [|exact IH].
    apply String.eqb_eq in E1; subst k0. congruence.
Qed.

Lemma dict_get_del d k k' :
  dict_get k' (dict_del k d) = if String.eqb k k' then None else dict_get k' d.
Proof.
  unfold dict_del. induction d as [|[k0 v0] d IH]; simpl.
  - destruct (String.eqb k k'); reflexivity.
  - destruct (String.eqb k0 k) eqn:E0; simpl.
    + apply String.eqb_eq in E0; subst k0. rewrite IH.
      destruct (String.eqb k k'); reflexivity.
    + rewrite IH. destruct (String.eqb k0 k') eqn:E1; [|reflexivity].
      apply String.eqb_eq in E1; subst k0. rewrite String.eqb_sym, E0.
      reflexivity.
Qed.

Lemma find_filter_keys (p : str -> bool) d :
  find (fun kv => negb (p (fst kv))) (filter (fun kv : str * V => p (fst kv)) d)
  = None.
Proof.
  induction d as [|[k0 v0] d IH]; simpl; [reflexivity|].
  destruct (p k0) eqn:E0; simpl; [rewrite E0; simpl|]; exact IH.
Qed.

Lemma dict_get_None_keys d k :
  dict_get k d = None <-> ~ In k (dict_keys d).
Proof.
  unfold dict_keys. induction d as [|[k0 v0] d IH]; simpl.
  - tauto.
  - destruct (String.eqb k0 k) eqn:E0.
    + apply String.eqb_eq in E0. split; [discriminate | tauto].
    + apply String.eqb_neq in E0. tauto.
Qed.

Lemma dict_keys_set d k (v : V) :
  dict_keys (dict_set k v d)
  = if urllib.str_in k (dict_keys d) then dict_keys d
    else (dict_keys d ++ [k])%list.
Proof.
  unfold dict_keys, urllib.str_in. induction d as [|[k0 v0] d IH]; simpl.
  - reflexivity.
  - rewrite (String.eqb_sym k k0).
    destruct (String.eqb k0 k) eqn:E0; simpl.
    + reflexivity.
    + rewrite IH. destruct (existsb (String.eqb k) (map fst d)); reflexivity.
Qed.
End DictFacts.

(** ** declare_info *)

Lemma str_in_In (k : str) (l : list str) :
  urllib.str_in k l = true <-> In k l.
Proof.
  unfold urllib.str_in. rewrite existsb_exists. split.
  - intros [x [Hx E]]. apply String.eqb_eq in E. subst x. exact Hx.
  - intros Hk. exists k. split; [exact Hk | apply String.eqb_refl].
Qed.

(** After the comprehension every key is a field, so the constructor binds
    the fields straight from the decoded mapping. *)
Lemma declare_info_bind (d : dict str) :
  declare_info d = B02KInfo_bind d.
Proof.
  unfold declare_info, B02KInfo_new.
  change B02KInfo_fields with B02K_KEYS.
  rewrite (find_filter_keys (fun k => urllib.str_in k B02K_KEYS)).
  unfold B02KInfo_bind.
  rewrite !(dict_get_filter_keys (fun k => urllib.str_in k B02K_KEYS))
    by reflexivity.
  replace (filter (absent (filter (fun kv => urllib.str_in (fst kv) B02K_KEYS) d))
                  B02KInfo_fields)
    with (filter (absent d) B02KInfo_fields); [reflexivity|].
  apply filter_ext_in. intros k Hk. unfold absent.
  rewrite (dict_get_filter_keys (fun k => urllib.str_in k B02K_KEYS));
    [reflexivity | apply str_in_In; exact Hk].
Qed.

Lemma B02KInfo_bind_ext (d d' : dict str) :
  (forall k, In k B02K_KEYS -> dict_get k d = dict_get k d') ->
  B02KInfo_bind d = B02KInfo_bind d'.
Proof.
  intros H. unfold B02KInfo_bind.
  rewrite !H by (simpl; tauto).
  replace (filter (absent d) B02KInfo_fields)
    with (filter (absent d') B02KInfo_fields); [reflexivity|].
  apply filter_ext_in. intros k Hk. unfold absent. rewrite H; [reflexivity|].
  exact Hk.
Qed.

Lemma B02KInfo_bind_carries (d : dict str) (f : B02KInfo) :
  carries d f -> B02KInfo_bind d = Ok f.
Proof.
  unfold carries. simpl. intros H. injection H as H1 H2 H3 H4 H5 H6 H7 H8 H9.
  unfold B02KInfo_bind. rewrite H1, H2, H3, H4, H5, H6, H7, H8, H9.
  destruct f; reflexivity.
Qed.

Lemma B02KInfo_bind_Ok (d : dict str) (f : B02KInfo) :
  B02KInfo_bind d = Ok f -> carries d f.
Proof.
  unfold B02KInfo_bind, carries. simpl.
  repeat match goal with
         | |- context [match dict_get ?k d with _ => _ end] =>
             destruct (dict_get k d); [|discriminate]
         end.
  intros H. injection H as <-. reflexivity.
Qed.

Lemma B02KInfo_bind_missing (d : dict str) (k : str) :
  In k B02K_KEYS -> dict_get k d = None ->
  B02KInfo_bind d = Raise (TypeError_missing (filter (absent d) B02K_KEYS)).
Proof.
  intros Hk Hnone. change B02K_KEYS with B02KInfo_fields.
  destruct (B02KInfo_bind d) as [f|e] eqn:E.
  - apply B02KInfo_bind_Ok in E. unfold carries in E. simpl in E.
    injection E as H1 H2 H3 H4 H5 H6 H7 H8 H9.
    simpl in Hk. repeat (destruct Hk as [<-|Hk]; [congruence|]). contradiction.
  - revert E. unfold B02KInfo_bind.
    repeat match goal with
           | |- context [match dict_get ?k d with _ => _ end] =>
               destruct (dict_get k d)
           end; congruence.
Qed.

Lemma declare_info_carries (d : dict str) (f : B02KInfo) :
  carries d f <-> declare_info d = Ok f.
Proof.
  rewrite declare_info_bind. split;
    [apply B02KInfo_bind_carries | apply B02KInfo_bind_Ok].
Qed.

(** ** parse_qs and get_qs_dict *)

Lemma values_of_cons (k : str) (nv : str * str) (pairs : list (str * str)) :
  values_of k (nv :: pairs)
  = if String.eqb (fst nv) k then snd nv :: values_of k pairs
    else values_of k pairs.
Proof.
  unfold values_of. destruct nv as [n v]. simpl.
  destruct (String.eqb n k); reflexivity.
Qed.

(** [parse_qs] groups the values by key, in order of appearance. *)
Lemma parse_qs_fold_get (pairs : list (str * str)) :
  forall (d : dict (list str)) (k : str),
    dict_get k (fold_left urllib.parse_qs_add pairs d)
    = match dict_get k d with
      | Some l => Some (l ++ values_of k pairs)%list
      | None => match values_of k pairs with
                | [] => None
                | vs => Some vs
                end
      end.
Proof.
  induction pairs as [|[n v] pairs IH]; intros d k.
  - simpl. destruct (dict_get k d); [rewrite app_nil_r|]; reflexivity.
  - simpl fold_left. rewrite IH, values_of_cons. simpl fst. simpl snd.
    unfold urllib.parse_qs_add.
    destruct (dict_get n d) as [l|] eqn:En; rewrite dict_get_set;
      destruct (String.eqb n k) eqn:E.
    + apply String.eqb_eq in E. subst k. rewrite En, <- app_assoc. reflexivity.
    + reflexivity.
    + apply String.eqb_eq in E. subst k. rewrite En. reflexivity.
    + reflexivity.
Qed.

Lemma parse_qs_get (q k : str) :
  dict_get k (urllib.parse_qs q)
  = match values_of k (urllib.parse_qsl q) with
    | [] => None
    | vs => Some vs
    end.
Proof.
  unfold urllib.parse_qs. rewrite parse_qs_fold_get. reflexivity.
Qed.

Lemma NoDup_dict_keys_set {V : Type} (d : dict V) (k : str) (v : V) :
  NoDup (dict_keys d) -> NoDup (dict_keys (dict_set k v d)).
Proof.
  intros Hd. rewrite dict_keys_set.
  destruct (urllib.str_in k (dict_keys d)) eqn:E; [exact Hd|].
  rewrite <- (rev_involutive (dict_keys d ++ [k])). apply NoDup_rev.
  rewrite rev_app_distr. simpl.
  constructor; [|apply NoDup_rev, Hd].
  rewrite <- in_rev. intros Hin. apply str_in_In in Hin. congruence.
Qed.

Lemma parse_qs_fold_NoDup (pairs : list (str * str)) :
  forall d : dict (list str),
    NoDup (dict_keys d) ->
    NoDup (dict_keys (fold_left urllib.parse_qs_add pairs d)).
Proof.
  induction pairs as [|[n v] pairs IH]; intros d Hd; [exact Hd|].
  simpl. apply IH. unfold urllib.parse_qs_add.
  destruct (dict_get n d); apply NoDup_dict_keys_set, Hd.
Qed.

Lemma parse_qs_NoDup (q : str) : NoDup (dict_keys (urllib.parse_qs q)).
Proof. apply parse_qs_fold_NoDup. constructor. Qed.

Lemma dict_get_In {V : Type} (d : dict V) (k : str) (v : V) :
  dict_get k d = Some v -> In (k, v) d.
Proof.
  induction d as [|[k0 v0] d IH]; simpl; [discriminate|].
  destruct (String.eqb k0 k) eqn:E.
  - apply String.eqb_eq in E. subst k0. intros [= ->]. left. reflexivity.
  - intros H. right. apply IH, H.
Qed.

Lemma In_dict_get {V : Type} (d : dict V) (k : str) (v : V) :
  NoDup (dict_keys d) -> In (k, v) d -> dict_get k d = Some v.
Proof.
  unfold dict_keys. induction d as [|[k0 v0] d IH]; simpl; [contradiction|].
  intros Hd [H|H].
  - injection H as -> ->. rewrite String.eqb_refl. reflexivity.
  - inversion Hd as [|? ? Hnotin Hd']; subst.
    destruct (String.eqb k0 k) eqn:E; [|apply IH; assumption].
    apply String.eqb_eq in E. subst k0. exfalso. apply Hnotin.
    apply (in_map fst) in H. exact H.
Qed.

(** The loop returns when every item holds exactly one value, and raises on
    the first item that does not. *)
Lemma get_qs_dict_loop_Ok (items : list (str * list str)) :
  forall qs : dict str,
    Forall (fun kv => List.length (snd kv) = 1%nat) items ->
    get_qs_dict_loop items qs
    = Ok (fold_left (fun acc kv => dict_set (fst kv) (hd EmptyString (snd kv)) acc)
                    items qs).
Proof.
  induction items as [|[k v] items IH]; intros qs Hall; [reflexivity|].
  inversion Hall as [|? ? Hv Hrest]; subst. simpl in Hv.
  destruct v as [|v0 [|v1 v]]; try discriminate.
  simpl. apply IH, Hrest.
Qed.

Lemma get_qs_dict_loop_Raise (items : list (str * list str)) :
  forall qs : dict str,
    ~ Forall (fun kv => List.length (snd kv) = 1%nat) items ->
    exists k v, In (k, v) items /\ List.length v <> 1%nat
                /\ get_qs_dict_loop items qs = Raise (ValueError_values v).
Proof.
  induction items as [|[k v] items IH]; intros qs Hall.
  - exfalso. apply Hall. constructor.
  - destruct v as [|v0 [|v1 v]].
    + exists k, []. simpl. repeat split; [left; reflexivity | discriminate].
    + destruct (IH (dict_set k v0 qs)) as (k' & v' & Hin & Hlen & E).
      * intros H. apply Hall. constructor; [reflexivity | exact H].
      * exists k', v'. repeat split; [right; exact Hin | exact Hlen | exact E].
    + exists k, (v0 :: v1 :: v). simpl.
      repeat split; [left; reflexivity | discriminate].
Qed.

Lemma fold_dict_set_get (items : list (str * list str)) :
  forall (qs : dict str) (k : str),
    NoDup (dict_keys items) ->
    dict_get k (fold_left (fun acc kv => dict_set (fst kv) (hd EmptyString (snd kv)) acc)
                          items qs)
    = match dict_get k items with
      | Some v => Some (hd EmptyString v)
      | None => dict_get k qs
      end.
Proof.
  unfold dict_keys.
  induction items as [|[k0 v0] items IH]; intros qs k Hd; [reflexivity|].
  inversion Hd as [|? ? Hnotin Hd']; subst.
  simpl. rewrite IH by exact Hd'.
  destruct (String.eqb k0 k) eqn:E.
  - apply String.eqb_eq in E. subst k0.
    destruct (dict_get k items) eqn:Eg.
    + exfalso. apply Hnotin. apply dict_get_In in Eg.
      apply (in_map fst) in Eg. exact Eg.
    + rewrite dict_get_set, String.eqb_refl. reflexivity.
  - destruct (dict_get k items); [reflexivity|].
    rewrite dict_get_set, E. reflexivity.
Qed.

Lemma parse_qs_singletons (q : str) :
  Forall (fun kv => List.length (snd kv) = 1%nat) (urllib.parse_qs q)
  <-> forall k, (List.length (values_of k (urllib.parse_qsl q)) <= 1)%nat.
Proof.
  rewrite Forall_forall. split.
  - intros H k. pose proof (parse_qs_get q k) as Hg.
    destruct (values_of k (urllib.parse_qsl q)) as [|v vs] eqn:E.
    + simpl. lia.
    + apply dict_get_In, H in Hg. simpl in Hg. simpl. lia.
  - intros H [k v] Hin. simpl.
    apply In_dict_get in Hin; [|apply parse_qs_NoDup].
    rewrite parse_qs_get in Hin. specialize (H k).
    destruct (values_of k (urllib.parse_qsl q)) as [|v0 vs]; [discriminate|].
    injection Hin as <-. simpl in *.
    destruct vs; simpl in *; lia.
Qed.

(** ** str *)

Lemma append_assoc (a b c : str) : (a ++ b) ++ c = a ++ (b ++ c).
Proof. induction a as [|x a IH]; simpl; [|rewrite IH]; reflexivity. Qed.

Lemma append_nil_r (a : str) : a ++ EmptyString = a.
Proof. induction a as [|x a IH]; simpl; [|rewrite IH]; reflexivity. Qed.

Lemma length_append (a b : str) :
  String.length (a ++ b) = (String.length a + String.length b)%nat.
Proof. induction a as [|x a IH]; simpl; [|rewrite IH]; reflexivity. Qed.

Lemma all_append (p : ascii -> bool) (a b : str) :
  Str.all p (a ++ b) = Str.all p a && Str.all p b.
Proof.
  induction a as [|x a IH]; simpl; [reflexivity|].
  rewrite IH, andb_assoc. reflexivity.
Qed.

Lemma contains_append (c : ascii) (a b : str) :
  Str.contains c (a ++ b) = Str.contains c a || Str.contains c b.
Proof.
  induction a as [|x a IH]; simpl; [reflexivity|].
  rewrite IH, orb_assoc. reflexivity.
Qed.

Lemma partition_None (c : ascii) (s : str) :
  Str.partition c s = None <-> Str.contains c s = false.
Proof.
  induction s as [|a s IH]; simpl; [tauto|].
  destruct (Ascii.eqb a c); simpl.
  - split; discriminate.
  - destruct (Str.partition c s) as [[h t]|].
    + split; [discriminate|]. intros H. apply IH in H. discriminate.
    + split; [|reflexivity]. intros _. apply IH. reflexivity.
Qed.

Lemma partition_Some (c : ascii) (s h t : str) :
  Str.partition c s = Some (h, t) ->
  s = h ++ String c t /\ Str.contains c h = false.
Proof.
  revert h. induction s as [|a s IH]; intros h; simpl; [discriminate|].
  destruct (Ascii.eqb a c) eqn:E.
  - apply Ascii.eqb_eq in E. subst a. intros [= <- <-]. split; reflexivity.
  - destruct (Str.partition c s) as [[h' t']|]; [|discriminate].
    intros [= <- <-]. destruct (IH h' eq_refl) as [-> Hh]. simpl.
    rewrite E, Hh. split; reflexivity.
Qed.

Lemma partition_append (c : ascii) (h t : str) :
  Str.contains c h = false ->
  Str.partition c (h ++ String c t) = Some (h, t).
Proof.
  induction h as [|a h IH]; simpl.
  - rewrite Ascii.eqb_refl. reflexivity.
  - destruct (Ascii.eqb a c); simpl; [discriminate|].
    intros H. rewrite IH by exact H. reflexivity.
Qed.

(** [s.split(c, 1)] has one item when [c] does not occur in [s], and
    otherwise the two items around the first [c]. *)
Lemma split_max1_spec (c : ascii) (s : str) :
  (Str.contains c s = false /\ Str.split_max1 c s = [s])
  \/ (exists h t, s = h ++ String c t /\ Str.contains c h = false
                  /\ Str.split_max1 c s = [h; t]).
Proof.
  unfold Str.split_max1. destruct (Str.partition c s) as [[h t]|] eqn:E.
  - right. exists h, t. apply partition_Some in E. tauto.
  - left. apply partition_None in E. tauto.
Qed.

(** ** hashlib: the shape of a digest *)

Lemma round_length (s : list Z) (kw : Z * Z) :
  List.length (hashlib.round s kw) = List.length s.
Proof.
  unfold hashlib.round.
  do 9 (destruct s as [|? s]; [reflexivity|]). reflexivity.
Qed.

Lemma fold_round_length (l : list (Z * Z)) :
  forall s, List.length (fold_left hashlib.round l s) = List.length s.
Proof.
  induction l as [|kw l IH]; intros s; simpl; [reflexivity|].
  rewrite IH. apply round_length.
Qed.

Lemma compress_length (h : list Z) (block : bytes) :
  List.length (hashlib.compress h block) = List.length h.
Proof.
  unfold hashlib.compress.
  rewrite length_map, length_combine, fold_round_length. apply Nat.min_id.
Qed.

Lemma blocks_length (n : nat) :
  forall h b, List.length (hashlib.blocks n h b) = List.length h.
Proof.
  induction n as [|n IH]; intros h b; simpl; [reflexivity|].
  rewrite IH. apply compress_length.
Qed.

Lemma be_bytes_length (n : nat) (x : Z) :
  List.length (hashlib.be_bytes n x) = n.
Proof. induction n as [|n IH]; simpl; [|rewrite IH]; reflexivity. Qed.

Lemma be_bytes_range (n : nat) (x : Z) :
  Forall byte_range (hashlib.be_bytes n x).
Proof.
  induction n as [|n IH]; simpl; constructor; [|exact IH].
  apply Z.mod_pos_bound. lia.
Qed.

Lemma flat_map_be_bytes_length (ws : list Z) :
  List.length (flat_map (hashlib.be_bytes 4) ws) = (4 * List.length ws)%nat.
Proof.
  induction ws as [|w ws IH]; [reflexivity|].
  cbn [flat_map]. rewrite length_app, be_bytes_length, IH. simpl. lia.
Qed.

Lemma sha256_length (m : bytes) : List.length (hashlib.sha256 m) = 32%nat.
Proof.
  unfold hashlib.sha256. rewrite flat_map_be_bytes_length, blocks_length.
  reflexivity.
Qed.

Lemma sha256_range (m : bytes) : Forall byte_range (hashlib.sha256 m).
Proof.
  unfold hashlib.sha256. apply Forall_flat_map, Forall_forall.
  intros w _. apply be_bytes_range.
Qed.

Lemma nibble_cases (d : Z) :
  0 <= d < 16 ->
  In d [0; 1; 2; 3; 4; 5; 6; 7; 8; 9; 10; 11; 12; 13; 14; 15].
Proof.
  intros H. simpl.
  assert (d = 0 \/ d = 1 \/ d = 2 \/ d = 3 \/ d = 4 \/ d = 5 \/ d = 6 \/ d = 7
          \/ d = 8 \/ d = 9 \/ d = 10 \/ d = 11 \/ d = 12 \/ d = 13 \/ d = 14
          \/ d = 15) by lia.
  intuition auto.
Qed.

(** What holds of the sixteen hexadecimal digits holds of both digits of a
    byte. *)
Lemma hex_digits (p : Z -> bool) (b : Z) :
  forallb p [0; 1; 2; 3; 4; 5; 6; 7; 8; 9; 10; 11; 12; 13; 14; 15] = true ->
  byte_range b -> p (b / 16) = true /\ p (b mod 16) = true.
Proof.
  intros Hp Hb. rewrite forallb_forall in Hp. unfold byte_range in Hb.
  split; apply Hp, nibble_cases.
  - split; [apply Z.div_pos; lia | apply Z.div_lt_upper_bound; lia].
  - apply Z.mod_pos_bound. lia.
Qed.

Lemma hex_length (b : bytes) :
  String.length (hashlib.hex b) = (2 * List.length b)%nat.
Proof. induction b as [|x b IH]; simpl; [|rewrite IH; lia]; reflexivity. Qed.

Lemma hex_all (p : ascii -> bool) (b : bytes) :
  forallb (fun d => p (hashlib.hexdigit d))
          [0; 1; 2; 3; 4; 5; 6; 7; 8; 9; 10; 11; 12; 13; 14; 15] = true ->
  Forall byte_range b -> Str.all p (hashlib.hex b) = true.
Proof.
  intros Hp. induction 1 as [|x b Hx Hb IH]; simpl; [reflexivity|].
  destruct (hex_digits (fun d => p (hashlib.hexdigit d)) x Hp Hx) as [-> ->].
  exact IH.
Qed.

Lemma all_map_chars (p : ascii -> bool) (f : ascii -> ascii) (s : str) :
  Str.all p (Str.map_chars f s) = Str.all (fun c => p (f c)) s.
Proof. induction s as [|c s IH]; simpl; [|rewrite IH]; reflexivity. Qed.

Lemma length_map_chars (f : ascii -> ascii) (s : str) :
  String.length (Str.map_chars f s) = String.length s.
Proof. induction s as [|c s IH]; simpl; [|rewrite IH]; reflexivity. Qed.

(** A digest is 64 lower-case hexadecimal digits. *)
Lemma hexdigest_shape (m : bytes) :
  String.length (hashlib.hexdigest m) = 64%nat
  /\ Str.all lower_hex_char (hashlib.hexdigest m) = true.
Proof.
  unfold hashlib.hexdigest. split.
  - rewrite hex_length, sha256_length. reflexivity.
  - apply hex_all; [reflexivity | apply sha256_range].
Qed.

Lemma upper_hexdigest_shape (m : bytes) :
  String.length (Str.upper (hashlib.hexdigest m)) = 64%nat
  /\ Str.all upper_hex_char (Str.upper (hashlib.hexdigest m)) = true.
Proof.
  unfold Str.upper. split.
  - rewrite length_map_chars. apply hexdigest_shape.
  - rewrite all_map_chars. unfold hashlib.hexdigest.
    apply hex_all; [reflexivity | apply sha256_range].
Qed.

(** The test vectors of FIPS 180-4 for the empty message, for one block and
    for two blocks. *)
Example sha256_empty :
  hashlib.hexdigest (Str.encode EmptyString)
  = "e3b0c44298fc1c149afbf4c8996fb92427ae41e4649b934ca495991b7852b855".
Proof. vm_compute. reflexivity. Qed.

Example sha256_abc :
  hashlib.hexdigest (Str.encode "abc")
  = "ba7816bf8f01cfea414140de5dae2223b00361a396177a9cb410ff61f20015ad".
Proof. vm_compute. reflexivity. Qed.

Example sha256_two_blocks :
  hashlib.hexdigest
    (Str.encode "abcdbcdecdefdefgefghfghighijhijkijkljklmklmnlmnomnopnopq")
  = "248d6a61d20638b8e5c026930c3e6039a33ce45964ff2167f6ecedd419db06c1".
Proof. vm_compute. reflexivity. Qed.

(** [get_qs_dict] either returns, and then no key has two values, or raises
    with the values of a key that has at least two. *)
Lemma get_qs_dict_cases (q : str) :
  ((forall k, (List.length (values_of k (urllib.parse_qsl q)) <= 1)%nat)
   /\ exists d, get_qs_dict q = Ok d
                /\ forall k, dict_get k d
                             = match values_of k (urllib.parse_qsl q) with
                               | [v] => Some v
                               | _ => None
                               end)
  \/ (exists k, (2 <= List.length (values_of k (urllib.parse_qsl q)))%nat
                /\ get_qs_dict q
                   = Raise (ValueError_values (values_of k (urllib.parse_qsl q)))).
Proof.
  unfold get_qs_dict.
  destruct (Forall_dec (fun kv : str * list str => List.length (snd kv) = 1%nat)
                       (fun kv => Nat.eq_dec (List.length (snd kv)) 1)
                       (urllib.parse_qs q)) as [Hall|Hnot].
  - left. pose proof (proj1 (parse_qs_singletons q) Hall) as Hle.
    split; [exact Hle|]. eexists. split; [apply get_qs_dict_loop_Ok, Hall|].
    intros k. rewrite fold_dict_set_get by apply parse_qs_NoDup.
    rewrite parse_qs_get. specialize (Hle k).
    destruct (values_of k (urllib.parse_qsl q)) as [|v [|v' vs]];
      simpl in *; try reflexivity. lia.
  - right. destruct (get_qs_dict_loop_Raise _ [] Hnot) as (k & v & Hin & Hlen & E).
    exists k. apply In_dict_get in Hin; [|apply parse_qs_NoDup].
    rewrite parse_qs_get in Hin.
    destruct (values_of k (urllib.parse_qsl q)) as [|v0 vs]; [discriminate|].
    injection Hin as <-. split; [|exact E].
    destruct vs; simpl in *; [congruence | lia].
Qed.

Lemma parse_field_blank (name : str) :
  Str.contains "=" name = false ->
  urllib.parse_field name = [] /\ urllib.parse_field (name ++ "=") = [].
Proof.
  intros H. unfold urllib.parse_field, Str.split_max1. split.
  - apply partition_None in H. rewrite H. reflexivity.
  - rewrite (partition_append "=" name EmptyString H). reflexivity.
Qed.

(** ** urlencode on text that needs no quoting *)

Lemma all_impl (p q : ascii -> bool) (s : str) :
  (forall c, p c = true -> q c = true) ->
  Str.all p s = true -> Str.all q s = true.
Proof.
  intros Hpq. induction s as [|c s IH]; simpl; [reflexivity|].
  intros H. apply andb_true_iff in H. destruct H as [Hc Hs].
  rewrite (Hpq c Hc), (IH Hs). reflexivity.
Qed.

Lemma quote_always_safe (safe s : str) :
  Str.all urllib.always_safe s = true -> urllib.quote safe s = s.
Proof.
  induction s as [|c s IH]; simpl; [reflexivity|].
  intros H. apply andb_true_iff in H. destruct H as [Hc Hs].
  unfold urllib.quoter. rewrite Hc, (IH Hs). reflexivity.
Qed.

Lemma always_safe_no_space (s : str) :
  Str.all urllib.always_safe s = true -> Str.contains " " s = false.
Proof.
  induction s as [|c s IH]; simpl; [reflexivity|].
  intros H. apply andb_true_iff in H. destruct H as [Hc Hs].
  rewrite (IH Hs), orb_false_r.
  destruct (Ascii.eqb c " ") eqn:E; [|reflexivity].
  apply Ascii.eqb_eq in E. subst c. discriminate.
Qed.

Lemma quote_plus_always_safe (s : str) :
  Str.all urllib.always_safe s = true -> urllib.quote_plus s = s.
Proof.
  intros H. unfold urllib.quote_plus.
  rewrite (always_safe_no_space s H). simpl. apply quote_always_safe, H.
Qed.

Lemma lower_hex_always_safe (c : ascii) :
  lower_hex_char c = true -> urllib.always_safe c = true.
Proof.
  unfold lower_hex_char, urllib.always_safe, Str.isalpha, Str.islower,
    urllib.between.
  intros H. apply orb_true_iff in H. destruct H as [->|H].
  - rewrite orb_true_r. reflexivity.
  - apply andb_true_iff in H. destruct H as [H1 H2].
    apply Z.leb_le in H1. apply Z.leb_le in H2.
    replace (97 <=? Str.code c) with true by (symmetry; apply Z.leb_le; lia).
    replace (Str.code c <=? 122) with true by (symmetry; apply Z.leb_le; lia).
    rewrite orb_true_r. reflexivity.
Qed.

Lemma quote_plus_hexdigest (m : bytes) :
  urllib.quote_plus (hashlib.hexdigest m) = hashlib.hexdigest m.
Proof.
  apply quote_plus_always_safe.
  apply (all_impl lower_hex_char); [exact lower_hex_always_safe|].
  apply hexdigest_shape.
Qed.

(** ** The redirect *)

Section Redirect.
Context {P : Platform}.
Implicit Types (url inputsecret outputsecret error_url : str).

(** With a first and a last name the success URL is
    [?firstname=<first>&lastname=<last>&hash=<hash>], the two names
    quoted by [urlencode]. *)
Lemma build_success_url_two (f : B02KInfo) outputsecret (first last : str) :
  format_names (B02K_CUSTNAME f) = [first; last] ->
  build_success_url f outputsecret
  = Ok ("?firstname=" ++ urllib.quote_plus first
        ++ "&lastname=" ++ urllib.quote_plus last
        ++ "&hash=" ++ build_success_hash first last outputsecret).
Proof.
  intros H. unfold build_success_url. rewrite H.
  unfold urllib.urlencode. cbn [map Str.join fst snd].
  unfold build_success_hash at 1. rewrite quote_plus_hexdigest.
  change (urllib.quote_plus "firstname") with "firstname".
  change (urllib.quote_plus "lastname") with "lastname".
  change (urllib.quote_plus "hash") with "hash".
  rewrite !append_assoc. reflexivity.
Qed.

(** A name that title-cases to text without a space gives one item, and
    unpacking it into a first and a last name raises. *)
Lemma build_success_url_one (f : B02KInfo) outputsecret :
  Str.contains " " (Str.title (B02K_CUSTNAME f)) = false ->
  format_names (B02K_CUSTNAME f) = [Str.title (B02K_CUSTNAME f)]
  /\ build_success_url f outputsecret
     = Raise (ValueError "not enough values to unpack (expected 2, got 1)").
Proof.
  intros H. unfold build_success_url, format_names, Str.split_max1.
  apply partition_None in H. rewrite H. split; reflexivity.
Qed.

Lemma format_names_cases (fullname : str) :
  (Str.contains " " (Str.title fullname) = false
   /\ format_names fullname = [Str.title fullname])
  \/ (exists first last,
        Str.title fullname = first ++ String " " last
        /\ Str.contains " " first = false
        /\ format_names fullname = [first; last]).
Proof. apply split_max1_spec. Qed.

Lemma get_redirect_url_parse_error url inputsecret outputsecret error_url e :
  urllib.urlparse url = Raise e ->
  get_redirect_url url inputsecret outputsecret error_url = Raise e.
Proof. intros H. unfold get_redirect_url. rewrite H. reflexivity. Qed.

Lemma get_redirect_url_decode_error url inputsecret outputsecret error_url
      parsed e :
  urllib.urlparse url = Ok parsed ->
  get_qs_dict (urllib.query parsed) = Raise e ->
  get_redirect_url url inputsecret outputsecret error_url = Raise e.
Proof.
  intros H1 H2. unfold get_redirect_url. rewrite H1. simpl. rewrite H2.
  reflexivity.
Qed.

Lemma get_redirect_url_decoded url inputsecret outputsecret error_url qs :
  decoded_query url qs ->
  get_redirect_url url inputsecret outputsecret error_url
  = (b02kinfo <- declare_info qs ;;
     mac <- getitem qs B02K_MAC ;;
     if String.eqb (calculate_signature b02kinfo inputsecret) mac
     then build_success_url b02kinfo outputsecret
     else Ok error_url).
Proof.
  intros (parsed & H1 & H2). unfold get_redirect_url. rewrite H1. simpl.
  rewrite H2. reflexivity.
Qed.

Lemma get_redirect_url_projection_error url inputsecret outputsecret
      error_url qs e :
  decoded_query url qs -> declare_info qs = Raise e ->
  get_redirect_url url inputsecret outputsecret error_url = Raise e.
Proof.
  intros Hq He. rewrite (get_redirect_url_decoded _ _ _ _ qs Hq), He.
  reflexivity.
Qed.

Lemma get_redirect_url_no_mac url inputsecret outputsecret error_url qs f :
  decoded_query url qs -> declare_info qs = Ok f ->
  dict_get B02K_MAC qs = None ->
  get_redirect_url url inputsecret outputsecret error_url
  = Raise (KeyError B02K_MAC).
Proof.
  intros Hq Hf Hmac. rewrite (get_redirect_url_decoded _ _ _ _ qs Hq), Hf.
  simpl. unfold getitem. rewrite Hmac. reflexivity.
Qed.

Lemma get_redirect_url_compare url inputsecret outputsecret error_url f mac :
  reaches_comparison url f mac ->
  get_redirect_url url inputsecret outputsecret error_url
  = if String.eqb (calculate_signature f inputsecret) mac
    then build_success_url f outputsecret
    else Ok error_url.
Proof.
  intros (qs & Hq & Hf & Hmac).
  rewrite (get_redirect_url_decoded _ _ _ _ qs Hq), Hf.
  simpl. unfold getitem. rewrite Hmac. reflexivity.
Qed.


Lemma get_redirect_url_match url inputsecret outputsecret error_url f :
  reaches_comparison url f (calculate_signature f inputsecret) ->
  get_redirect_url url inputsecret outputsecret error_url
  = build_success_url f outputsecret.
Proof.
  intros H. rewrite (get_redirect_url_compare _ _ _ _ f _ H).
  rewrite String.eqb_refl. reflexivity.
Qed.
End Redirect.

(** ** unquote after quote *)

Lemma contains_all_false (p : ascii -> bool) (c : ascii) (s : str) :
  p c = false -> Str.all p s = true -> Str.contains c s = false.
Proof.
  intros Hc. induction s as [|a s IH]; simpl; [reflexivity|].
  intros H. apply andb_true_iff in H. destruct H as [Ha Hs].
  rewrite (IH Hs), orb_false_r.
  destruct (Ascii.eqb a c) eqn:E; [|reflexivity].
  apply Ascii.eqb_eq in E. subst a. congruence.
Qed.

Lemma replace_absent (a b : ascii) (s : str) :
  Str.contains a s = false -> Str.replace a b s = s.
Proof.
  unfold Str.replace. induction s as [|c s IH]; simpl; [reflexivity|].
  intros H. apply orb_false_iff in H. destruct H as [Hc Hs].
  rewrite Hc, (IH Hs). reflexivity.
Qed.

Lemma replace_back (a b : ascii) (s : str) :
  Str.contains b s = false -> Str.replace b a (Str.replace a b s) = s.
Proof.
  unfold Str.replace. induction s as [|c s IH]; simpl; [reflexivity|].
  intros H. apply orb_false_iff in H. destruct H as [Hc Hs].
  rewrite (IH Hs). destruct (Ascii.eqb c a) eqn:E.
  - apply Ascii.eqb_eq in E. subst c. rewrite Ascii.eqb_refl. reflexivity.
  - rewrite Hc. reflexivity.
Qed.

Lemma remove_absent (c : ascii) (s : str) :
  Str.contains c s = false -> Str.remove c s = s.
Proof.
  induction s as [|a s IH]; simpl; [reflexivity|].
  intros H. apply orb_false_iff in H. destruct H as [Ha Hs].
  rewrite Ha, (IH Hs). reflexivity.
Qed.

Lemma byte_cases (p : ascii -> Prop) :
  (forall b0 b1 b2 b3 b4 b5 b6 b7, p (Ascii b0 b1 b2 b3 b4 b5 b6 b7)) ->
  forall c, p c.
Proof. intros H [b0 b1 b2 b3 b4 b5 b6 b7]. apply H. Qed.

Lemma quoter_chars (safe : str) (c : ascii) :
  Str.all quoted_char safe = true ->
  Str.all quoted_char (urllib.quoter safe c) = true.
Proof.
  intros Hsafe. unfold urllib.quoter.
  destruct (urllib.always_safe c) eqn:Ec; simpl.
  - unfold quoted_char. rewrite Ec. reflexivity.
  - destruct (Str.contains c safe) eqn:Es.
    + simpl. rewrite andb_true_r. clear Ec.
      induction safe as [|a safe IH]; simpl in *; [discriminate|].
      apply andb_true_iff in Hsafe. destruct Hsafe as [Ha Hs].
      destruct (Ascii.eqb a c) eqn:E.
      * apply Ascii.eqb_eq in E. subst a. exact Ha.
      * apply IH; assumption.
    + clear. revert c. apply byte_cases.
      intros [] [] [] [] [] [] [] []; vm_compute; reflexivity.
Qed.

Lemma quote_chars (safe s : str) :
  Str.all quoted_char safe = true ->
  Str.all quoted_char (urllib.quote safe s) = true.
Proof.
  intros Hsafe. induction s as [|c s IH]; simpl; [reflexivity|].
  rewrite all_append, IH, (quoter_chars safe c Hsafe). reflexivity.
Qed.

Lemma quote_space_no_space (s : str) :
  Str.contains " " s = false -> urllib.quote " " s = urllib.quote EmptyString s.
Proof.
  induction s as [|c s IH]; [reflexivity|].
  cbn [Str.contains urllib.quote].
  intros H. apply orb_false_iff in H. destruct H as [Hc Hs].
  rewrite (IH Hs). f_equal. unfold urllib.quoter.
  cbn [Str.contains]. rewrite Ascii.eqb_sym, Hc. reflexivity.
Qed.

(** [quote_plus] is [quote] with the space kept, then written ['+'], and
    [quote] writes no ['+'] of its own. *)
Lemma unplus_quote_plus (s : str) :
  Str.replace "+" " " (urllib.quote_plus s) = urllib.quote " " s.
Proof.
  assert (Hplus : Str.contains "+" (urllib.quote " " s) = false).
  { apply (contains_all_false quoted_char); [reflexivity|].
    apply quote_chars. reflexivity. }
  unfold urllib.quote_plus. destruct (Str.contains " " s) eqn:E; simpl.
  - apply replace_back, Hplus.
  - rewrite <- (quote_space_no_space s E). apply replace_absent, Hplus.
Qed.

Lemma split_nonempty (c : ascii) (s : str) : Str.split c s <> [].
Proof.
  destruct s as [|a s]; simpl; [discriminate|].
  destruct (Ascii.eqb a c); [discriminate|].
  destruct (Str.split c s); discriminate.
Qed.

Lemma unquote_to_bytes_cons (c : ascii) (s : str) :
  Ascii.eqb c "%" = false ->
  urllib.unquote_to_bytes (String c s) = Str.code c :: urllib.unquote_to_bytes s.
Proof.
  intros Hc. unfold urllib.unquote_to_bytes. simpl. rewrite Hc.
  destruct (Str.split "%" s) as [|h t] eqn:E; [|reflexivity].
  exfalso. exact (split_nonempty _ _ E).
Qed.

Lemma ishex_not_percent (c : ascii) :
  urllib.ishex c = true -> Ascii.eqb c "%" = false.
Proof.
  destruct (Ascii.eqb c "%") eqn:E; [|reflexivity].
  apply Ascii.eqb_eq in E. subst c. discriminate.
Qed.

Lemma unquote_to_bytes_escape (a b : ascii) (s : str) :
  urllib.ishex a = true -> urllib.ishex b = true ->
  urllib.unquote_to_bytes (String "%" (String a (String b s)))
  = (16 * urllib.hexval a + urllib.hexval b) :: urllib.unquote_to_bytes s.
Proof.
  intros Ha Hb. unfold urllib.unquote_to_bytes. simpl.
  rewrite (ishex_not_percent a Ha), (ishex_not_percent b Hb).
  destruct (Str.split "%" s) as [|h t] eqn:E.
  - exfalso. exact (split_nonempty _ _ E).
  - simpl. rewrite Ha, Hb. reflexivity.
Qed.

Lemma quoter_unquote (safe : str) (c : ascii) (s : str) :
  Str.contains "%" safe = false ->
  urllib.unquote_to_bytes (urllib.quoter safe c ++ s)
  = Str.code c :: urllib.unquote_to_bytes s.
Proof.
  intros Hsafe. unfold urllib.quoter.
  destruct (urllib.always_safe c || Str.contains c safe) eqn:E; simpl.
  - apply unquote_to_bytes_cons.
    destruct (Ascii.eqb c "%") eqn:Ec; [|reflexivity].
    apply Ascii.eqb_eq in Ec. subst c. simpl in E. congruence.
  - clear E. rewrite unquote_to_bytes_escape.
    + f_equal. revert c. apply byte_cases.
      intros [] [] [] [] [] [] [] []; vm_compute; reflexivity.
    + revert c. apply byte_cases.
      intros [] [] [] [] [] [] [] []; vm_compute; reflexivity.
    + revert c. apply byte_cases.
      intros [] [] [] [] [] [] [] []; vm_compute; reflexivity.
Qed.

Lemma unquote_to_bytes_quote (safe s : str) :
  Str.contains "%" safe = false ->
  urllib.unquote_to_bytes (urllib.quote safe s) = Str.encode s.
Proof.
  intros Hsafe. induction s as [|c s IH]; [reflexivity|].
  simpl urllib.quote. rewrite (quoter_unquote safe c _ Hsafe), IH. reflexivity.
Qed.

Lemma quote_no_percent (safe s : str) :
  Str.contains "%" (urllib.quote safe s) = false -> urllib.quote safe s = s.
Proof.
  induction s as [|c s IH]; [reflexivity|].
  cbn [urllib.quote]. rewrite contains_append.
  intros H. apply orb_false_iff in H. destruct H as [Hc Hs].
  rewrite (IH Hs). revert Hc. unfold urllib.quoter.
  destruct (urllib.always_safe c || Str.contains c safe); [reflexivity|].
  simpl. discriminate.
Qed.

Lemma quoted_char_isascii (c : ascii) :
  quoted_char c = true -> Str.isascii c = true.
Proof.
  destruct c as [[] [] [] [] [] [] [] []]; vm_compute; intros H;
    first [reflexivity | discriminate H].
Qed.

Lemma unquote_runs_ascii (s : str) :
  forall run : str,
    Str.all Str.isascii s = true ->
    urllib.unquote_runs run s
    = urllib.decode_replace (urllib.unquote_to_bytes (run ++ s)).
Proof.
  induction s as [|c s IH]; intros run; simpl.
  - rewrite append_nil_r. reflexivity.
  - intros H. apply andb_true_iff in H. destruct H as [Hc Hs].
    rewrite Hc, (IH _ Hs), append_assoc. reflexivity.
Qed.

(** Unquoting what [quote] wrote gives the text back. *)
Lemma unquote_quote (s : str) :
  utf8_text s -> urllib.unquote (urllib.quote " " s) = s.
Proof.
  intros Htext. unfold urllib.unquote.
  destruct (Str.contains "%" (urllib.quote " " s)) eqn:E; simpl.
  - rewrite unquote_runs_ascii.
    + simpl. rewrite unquote_to_bytes_quote by reflexivity. exact Htext.
    + apply (all_impl quoted_char); [exact quoted_char_isascii|].
      apply quote_chars. reflexivity.
  - apply quote_no_percent, E.
Qed.

Lemma unquote_plus_quote_plus (s : str) :
  utf8_text s ->
  urllib.unquote (Str.replace "+" " " (urllib.quote_plus s)) = s.
Proof. intros H. rewrite unplus_quote_plus. apply unquote_quote, H. Qed.

Lemma chr_code (c : ascii) : Str.chr (Str.code c) = c.
Proof.
  unfold Str.chr, Str.code. rewrite N2Z.id. apply ascii_N_embedding.
Qed.

Lemma of_bytes_encode (s : str) : Str.of_bytes (Str.encode s) = s.
Proof.
  unfold Str.of_bytes, Str.encode. rewrite map_map.
  rewrite (map_ext _ (fun c => c) chr_code), map_id.
  apply string_of_list_ascii_of_string.
Qed.

Lemma decode_ascii (s : str) :
  Str.all Str.isascii s = true ->
  urllib.decode_from urllib.Start (Str.encode s) = Str.encode s.
Proof.
  unfold Str.encode. induction s as [|c s IH]; [reflexivity|].
  cbn [Str.all list_ascii_of_string map urllib.decode_from].
  intros H. apply andb_true_iff in H. destruct H as [Hc Hs].
  unfold urllib.utf8_step, urllib.utf8_start. unfold Str.isascii in Hc.
  rewrite Hc. simpl. rewrite (IH Hs). reflexivity.
Qed.

(** ASCII text is well-formed UTF-8. *)
Lemma ascii_utf8_text (s : str) :
  Str.all Str.isascii s = true -> utf8_text s.
Proof.
  intros H. unfold utf8_text, urllib.decode_replace.
  rewrite (decode_ascii s H). apply of_bytes_encode.
Qed.

(** ** Decoding what urlencode wrote *)

Lemma quote_plus_chars (s : str) :
  Str.all urlencoded_char (urllib.quote_plus s) = true.
Proof.
  unfold urllib.quote_plus. destruct (Str.contains " " s) eqn:E; simpl.
  - unfold Str.replace. rewrite all_map_chars.
    apply (all_impl quoted_char); [|apply quote_chars; reflexivity].
    intros c. destruct c as [[] [] [] [] [] [] [] []]; vm_compute; intros H;
      first [reflexivity | discriminate H].
  - induction s as [|c s IH]; [reflexivity|].
    cbn [Str.contains] in E. apply orb_false_iff in E. destruct E as [_ E].
    cbn [urllib.quote]. rewrite all_append, (IH E), andb_true_r.
    destruct c as [[] [] [] [] [] [] [] []]; vm_compute; reflexivity.
Qed.

Lemma quote_plus_nonempty (s : str) :
  s <> EmptyString -> urllib.quote_plus s <> EmptyString.
Proof.
  destruct s as [|c s]; [congruence|]. intros _.
  unfold urllib.quote_plus, Str.replace.
  destruct (negb (Str.contains " " (String c s))); cbn [urllib.quote];
    unfold urllib.quoter;
    destruct (urllib.always_safe c || Str.contains c _); simpl; discriminate.
Qed.

Lemma urlencode_field_chars (kv : str * str) :
  Str.all query_char (urlencode_field kv) = true.
Proof.
  unfold urlencode_field. rewrite !all_append.
  assert (H : forall s, Str.all query_char (urllib.quote_plus s) = true).
  { intros s. apply (all_impl urlencoded_char); [|apply quote_plus_chars].
    intros c Hc. unfold query_char. rewrite Hc. reflexivity. }
  rewrite !H. reflexivity.
Qed.

Lemma urlencode_field_no_amp (kv : str * str) :
  Str.contains "&" (urlencode_field kv) = false.
Proof.
  unfold urlencode_field. rewrite !contains_append.
  rewrite !(contains_all_false urlencoded_char "&" _ eq_refl
              (quote_plus_chars _)).
  reflexivity.
Qed.

Lemma urlencode_fields (d : dict str) :
  urllib.urlencode d = Str.join "&" (map urlencode_field d).
Proof. reflexivity. Qed.

Lemma join_chars (p : ascii -> bool) (sep : str) (l : list str) :
  Str.all p sep = true -> Forall (fun s => Str.all p s = true) l ->
  Str.all p (Str.join sep l) = true.
Proof.
  intros Hsep. induction 1 as [|x l Hx Hl IH]; [reflexivity|].
  destruct l as [|y l]; [exact Hx|].
  change (Str.join sep (x :: y :: l)) with (x ++ sep ++ Str.join sep (y :: l)).
  rewrite !all_append, Hx, Hsep, IH. reflexivity.
Qed.

Lemma urlencode_chars (d : dict str) :
  Str.all query_char (urllib.urlencode d) = true.
Proof.
  rewrite urlencode_fields. apply join_chars; [reflexivity|].
  apply Forall_forall. intros s Hs. apply in_map_iff in Hs.
  destruct Hs as [kv [<- _]]. apply urlencode_field_chars.
Qed.

Lemma split_absent (c : ascii) (s : str) :
  Str.contains c s = false -> Str.split c s = [s].
Proof.
  induction s as [|a s IH]; [reflexivity|].
  cbn [Str.contains Str.split]. intros H. apply orb_false_iff in H.
  destruct H as [Ha Hs]. rewrite Ha, (IH Hs). reflexivity.
Qed.

Lemma split_append (c : ascii) (s rest : str) :
  Str.contains c s = false ->
  Str.split c (s ++ String c rest) = s :: Str.split c rest.
Proof.
  induction s as [|a s IH]; cbn [Str.contains Str.split append].
  - rewrite Ascii.eqb_refl. reflexivity.
  - intros H. apply orb_false_iff in H. destruct H as [Ha Hs].
    rewrite Ha, (IH Hs). reflexivity.
Qed.

Lemma split_join (c : ascii) (l : list str) :
  l <> [] -> Forall (fun s => Str.contains c s = false) l ->
  Str.split c (Str.join (String c EmptyString) l) = l.
Proof.
  intros Hne H. induction H as [|x l Hx Hl IH]; [congruence|].
  destruct l as [|y l].
  - apply split_absent, Hx.
  - change (Str.join (String c EmptyString) (x :: y :: l))
      with (x ++ String c (Str.join (String c EmptyString) (y :: l))).
    rewrite (split_append c x _ Hx), IH; [reflexivity | discriminate].
Qed.

(** A field written by [urlencode] for a key and a non-blank value decodes
    to that key and value. *)
Lemma parse_field_urlencode_field (kv : str * str) :
  utf8_text (fst kv) -> carried_value (snd kv) ->
  urllib.parse_field (urlencode_field kv) = [kv].
Proof.
  destruct kv as [k v]. cbn [fst snd]. intros Hk [Hv Hvt].
  unfold urllib.parse_field, Str.split_max1, urlencode_field. cbn [fst snd].
  change ("=" ++ urllib.quote_plus v) with (String "=" (urllib.quote_plus v)).
  rewrite partition_append
    by exact (contains_all_false urlencoded_char "=" _ eq_refl
                (quote_plus_chars k)).
  destruct (urllib.quote_plus v) eqn:E.
  - exfalso. exact (quote_plus_nonempty v Hv E).
  - rewrite <- E, !unquote_plus_quote_plus by assumption. reflexivity.
Qed.

Lemma parse_qsl_urlencode (d : dict str) :
  Forall (fun kv => utf8_text (fst kv) /\ carried_value (snd kv)) d ->
  urllib.parse_qsl (urllib.urlencode d) = d.
Proof.
  intros Hd. destruct d as [|kv0 d0] eqn:Ed; [reflexivity|]. rewrite <- Ed in *.
  assert (Hfields : flat_map urllib.parse_field (map urlencode_field d) = d).
  { clear Ed. induction Hd as [|kv d [Hk Hv] Hd IH]; [reflexivity|].
    cbn [map flat_map]. rewrite (parse_field_urlencode_field kv Hk Hv), IH.
    reflexivity. }
  assert (Hsplit : Str.split "&" (urllib.urlencode d) = map urlencode_field d).
  { rewrite urlencode_fields. apply split_join.
    - rewrite Ed. discriminate.
    - apply Forall_forall. intros s Hs. apply in_map_iff in Hs.
      destruct Hs as [kv [<- _]]. apply urlencode_field_no_amp. }
  unfold urllib.parse_qsl. destruct (urllib.urlencode d) eqn:Eq.
  - exfalso. rewrite Ed in Hsplit. cbn in Hsplit.
    injection Hsplit as Hfield _. symmetry in Hfield.
    unfold urlencode_field in Hfield.
    destruct (urllib.quote_plus (fst kv0)); discriminate Hfield.
  - rewrite Hsplit. exact Hfields.
Qed.

Lemma dict_set_new {V : Type} (d : dict V) (k : str) (v : V) :
  ~ In k (dict_keys d) -> dict_set k v d = (d ++ [(k, v)])%list.
Proof.
  unfold dict_keys. induction d as [|[k0 v0] d IH]; simpl; [reflexivity|].
  intros H. destruct (String.eqb k0 k) eqn:E.
  - apply String.eqb_eq in E. tauto.
  - rewrite IH by tauto. reflexivity.
Qed.

Lemma dict_keys_app {V : Type} (d d' : dict V) :
  dict_keys (d ++ d')%list = (dict_keys d ++ dict_keys d')%list.
Proof. apply map_app. Qed.

Lemma NoDup_app_cons_l {A : Type} (l l' : list A) (x : A) :
  NoDup (l ++ x :: l')%list -> ~ In x l /\ NoDup ((l ++ [x]) ++ l')%list.
Proof.
  intros H. split.
  - apply NoDup_remove_2 in H. intros Hin. apply H, in_or_app. left. exact Hin.
  - rewrite <- app_assoc. exact H.
Qed.

(** On pairs with distinct keys [parse_qs] makes one singleton per pair, in
    order, and the loop of [get_qs_dict] gives the pairs back. *)
Lemma parse_qs_fold_distinct (pairs : list (str * str)) :
  forall acc : dict (list str),
    NoDup (dict_keys acc ++ dict_keys pairs)%list ->
    fold_left urllib.parse_qs_add pairs acc
    = (acc ++ map (fun nv => (fst nv, [snd nv])) pairs)%list.
Proof.
  induction pairs as [|[n v] pairs IH]; intros acc Hd.
  - simpl. rewrite app_nil_r. reflexivity.
  - cbn [dict_keys map fst] in Hd. apply NoDup_app_cons_l in Hd.
    destruct Hd as [Hn Hd].
    cbn [fold_left map fst snd]. unfold urllib.parse_qs_add at 2.
    rewrite (proj2 (dict_get_None_keys acc n) Hn), (dict_set_new acc n _ Hn).
    rewrite IH.
    + rewrite <- app_assoc. reflexivity.
    + rewrite dict_keys_app. exact Hd.
Qed.

Lemma get_qs_dict_loop_distinct (pairs : list (str * str)) :
  forall acc : dict str,
    NoDup (dict_keys acc ++ dict_keys pairs)%list ->
    get_qs_dict_loop (map (fun nv => (fst nv, [snd nv])) pairs) acc
    = Ok (acc ++ pairs)%list.
Proof.
  induction pairs as [|[n v] pairs IH]; intros acc Hd.
  - simpl. rewrite app_nil_r. reflexivity.
  - cbn [dict_keys map fst] in Hd. apply NoDup_app_cons_l in Hd.
    destruct Hd as [Hn Hd].
    cbn [map get_qs_dict_loop fst snd]. rewrite (dict_set_new acc n v Hn), IH.
    + rewrite <- app_assoc. reflexivity.
    + rewrite dict_keys_app. exact Hd.
Qed.

(** [get_qs_dict] inverts [urlencode] on a mapping of non-blank text. *)
Lemma get_qs_dict_urlencode (d : dict str) :
  NoDup (dict_keys d) ->
  Forall (fun kv => utf8_text (fst kv) /\ carried_value (snd kv)) d ->
  get_qs_dict (urllib.urlencode d) = Ok d.
Proof.
  intros Hkeys Hd. unfold get_qs_dict, urllib.parse_qs.
  rewrite (parse_qsl_urlencode d Hd), parse_qs_fold_distinct by exact Hkeys.
  apply (get_qs_dict_loop_distinct d []). exact Hkeys.
Qed.

(** ** The query component of a URL *)

Lemma remove_append (c : ascii) (a b : str) :
  Str.remove c (a ++ b) = Str.remove c a ++ Str.remove c b.
Proof.
  induction a as [|x a IH]; simpl; [reflexivity|].
  destruct (Ascii.eqb x c); simpl; rewrite IH; reflexivity.
Qed.

(** The fixture address followed by a query without ['#'], tab, carriage
    return or line feed parses to that query. *)
Lemma urlsplit_someserver {P : Platform} (q : str) :
  Str.all query_char q = true ->
  urllib.urlsplit ("http://someserver.com/?" ++ q)
  = Ok (urllib.mkSplitResult "http" "someserver.com" "/" q EmptyString).
Proof.
  intros Hq.
  assert (Hno : forall c, query_char c = false -> Str.contains c q = false).
  { intros c Hc. exact (contains_all_false query_char c q Hc Hq). }
  unfold urllib.urlsplit.
  replace (Str.lstrip urllib.c0_control_or_space
             ("http://someserver.com/?" ++ q))
    with ("http://someserver.com/?" ++ q) by reflexivity.
  rewrite !remove_append.
  rewrite (remove_absent "009" q), (remove_absent "013" q),
    (remove_absent "010" q) by (apply Hno; reflexivity).
  replace (Str.remove "010" (Str.remove "013"
            (Str.remove "009" "http://someserver.com/?")))
    with "http://someserver.com/?" by reflexivity.
  replace (urllib.split_scheme_of ("http://someserver.com/?" ++ q))
    with ("http", "//someserver.com/?" ++ q) by reflexivity.
  cbv beta iota.
  change ("//someserver.com/?" ++ q)
    with (String "/" (String "/" ("someserver.com/?" ++ q))).
  cbv beta iota.
  replace (urllib._splitnetloc
             (String "/" (String "/" ("someserver.com/?" ++ q))))
    with ("someserver.com", "/?" ++ q) by reflexivity.
  cbv beta iota.
  change (Str.contains "[" "someserver.com") with false.
  change (Str.contains "]" "someserver.com") with false.
  cbv beta iota delta [andb orb negb bind].
  replace (Str.partition "#" ("/?" ++ q)) with (@None (str * str)).
  - cbv beta iota.
    replace (Str.partition "?" ("/?" ++ q)) with (Some ("/", q))
      by reflexivity.
    reflexivity.
  - symmetry. apply partition_None. rewrite contains_append.
    rewrite (Hno "#"%char eq_refl). reflexivity.
Qed.

Lemma urlparse_someserver {P : Platform} (q : str) :
  Str.all query_char q = true ->
  urllib.urlparse ("http://someserver.com/?" ++ q)
  = Ok (urllib.mkParseResult "http" "someserver.com" "/" EmptyString q
                             EmptyString).
Proof.
  intros Hq. unfold urllib.urlparse. rewrite (urlsplit_someserver q Hq).
  reflexivity.
Qed.

(** ** The URL that carries a record and its signature *)

Lemma upper_hex_isascii (c : ascii) :
  upper_hex_char c = true -> Str.isascii c = true.
Proof.
  destruct c as [[] [] [] [] [] [] [] []]; vm_compute; intros H;
    first [reflexivity | discriminate H].
Qed.

Lemma calculate_signature_carried (f : B02KInfo) (secret : str) :
  carried_value (calculate_signature f secret).
Proof.
  unfold calculate_signature.
  destruct (upper_hexdigest_shape
              (Str.encode (B02K_VERS f ++ "&" ++ B02K_TIMESTMP f ++ "&"
                           ++ B02K_IDNBR f ++ "&" ++ B02K_STAMP f ++ "&"
                           ++ B02K_CUSTNAME f ++ "&" ++ B02K_KEYVERS f ++ "&"
                           ++ B02K_ALG f ++ "&" ++ B02K_CUSTID f ++ "&"
                           ++ B02K_CUSTTYPE f ++ "&" ++ secret ++ "&")))
    as [Hlen Hhex].
  split.
  - intros E. rewrite E in Hlen. discriminate Hlen.
  - apply ascii_utf8_text.
    apply (all_impl upper_hex_char); [exact upper_hex_isascii | exact Hhex].
Qed.

Lemma signed_url_decodes {P : Platform} (f : B02KInfo) (secret : str) :
  Forall carried_value (field_values f) ->
  decoded_query (signed_url f secret)
                (combine B02K_KEYS (field_values f)
                 ++ [(B02K_MAC, calculate_signature f secret)])%list.
Proof.
  intros Hf. unfold signed_url, signed_query.
  eexists. split; [apply urlparse_someserver, urlencode_chars|].
  cbn [urllib.query]. apply get_qs_dict_urlencode.
  - cbn. repeat (constructor; [simpl; intuition discriminate|]). constructor.
  - unfold field_values in *.
    repeat match goal with
           | H : Forall _ (_ :: _) |- _ =>
               let Hx := fresh "Hx" in
               apply Forall_cons_iff in H; destruct H as [Hx H]
           end.
    cbn [combine B02K_KEYS app].
    repeat (constructor;
            [split; [apply ascii_utf8_text; reflexivity | cbn [snd]; assumption]
            |]).
    constructor; [|constructor].
    split; [apply ascii_utf8_text; reflexivity|].
    apply calculate_signature_carried.
Qed.

(** ** The two signatures *)

(** C2.  [calculate_signature] is the upper-case hexadecimal SHA-256 digest
    of the bytes of the canonical string: the nine values in the protocol's
    order, each followed by ['&'], then the secret followed by ['&'].  It is
    64 characters among [0-9A-F], and on the fixture record with the secret
    ["inputsecret"] it is the fixture signature. *)
Theorem calculate_signature_canonical :
  (forall (f : B02KInfo) (secret : str),
     calculate_signature f secret
     = Str.upper (hashlib.hexdigest (Str.encode (canonical_inbound f secret)))
     /\ String.length (calculate_signature f secret) = 64%nat
     /\ Str.all upper_hex_char (calculate_signature f secret) = true)
  /\ field_values B02KINFO
     = ["0003"; "50020181017141433899056"; "2512408990";
        "20010125140015123456"; "FIRST LAST"; "0001"; "03"; "9984"; "02"]
  /\ calculate_signature B02KINFO "inputsecret"
     = "EBA959A76B87AE8996849E7C0C08D4AC44B053183BE12C0DAC2AD0C86F9F2542".
Proof.
  split; [|split; [reflexivity | vm_compute; reflexivity]].
  intros f secret. split; [|apply upper_hexdigest_shape].
  unfold calculate_signature, canonical_inbound, field_values.
  cbn [each_followed_by]. rewrite append_nil_r, !append_assoc. reflexivity.
Qed.

(** C3.  [build_success_hash] is the lower-case hexadecimal SHA-256 digest of
    the bytes of [firstname=<first>&lastname=<last>#<secret>], with nothing
    after the secret.  It is 64 characters among [0-9a-f], and on ["First"],
    ["Last"] and ["outputsecret"] it is the fixture hash. *)
Theorem build_success_hash_canonical :
  (forall first last secret : str,
     build_success_hash first last secret
     = hashlib.hexdigest (Str.encode (canonical_outbound first last secret))
     /\ String.length (build_success_hash first last secret) = 64%nat
     /\ Str.all lower_hex_char (build_success_hash first last secret) = true)
  /\ canonical_outbound "First" "Last" "outputsecret"
     = "firstname=First&lastname=Last#outputsecret"
  /\ build_success_hash "First" "Last" "outputsecret"
     = "4f6536ca2a23592d9037a4707bb44980b9bd2d4250fc1c833812068ccb000712".
Proof.
  split; [|split; [reflexivity | vm_compute; reflexivity]].
  intros first last secret. split; [reflexivity | apply hexdigest_shape].
Qed.

(** ** Decoding the query *)

(** A key whose only field has a blank value is dropped: the call returns the
    empty mapping and raises nothing. *)
Lemma get_qs_dict_blank_value_no_error :
  get_qs_dict "name=" = Ok [] /\ get_qs_dict "name" = Ok []
  /\ get_qs_dict "name=paulo&name=" = Ok [("name", "paulo")].
Proof. vm_compute. repeat split. Qed.

(** C6, as amended.  [get_qs_dict] raises [ValueError] exactly when some key
    has two or more values among the decoded fields of the query, and the
    exception holds the values of such a key; a field whose value is blank,
    or that has no ['='], yields no decoded field, so it is dropped without
    an error; when no key has two values the call returns the mapping that
    sends each key with a value to that value.  On ["name=paulo"] the result
    is [{name: paulo}], on ["name=paulo&name=chaves"] the error. *)
Theorem get_qs_dict_duplicates :
  (forall q : str,
     ((exists e, get_qs_dict q = Raise e)
      <-> exists k, (2 <= List.length (values_of k (urllib.parse_qsl q)))%nat)
     /\ (forall e, get_qs_dict q = Raise e ->
           exists k, (2 <= List.length (values_of k (urllib.parse_qsl q)))%nat
                     /\ e = ValueError_values (values_of k (urllib.parse_qsl q)))
     /\ (forall d, get_qs_dict q = Ok d ->
           forall k, dict_get k d
                     = match values_of k (urllib.parse_qsl q) with
                       | [v] => Some v
                       | _ => None
                       end))
  /\ (forall name : str,
        Str.contains "=" name = false ->
        urllib.parse_field name = [] /\ urllib.parse_field (name ++ "=") = [])
  /\ get_qs_dict "name=paulo" = Ok [("name", "paulo")]
  /\ get_qs_dict "name=paulo&name=chaves"
     = Raise (ValueError_values ["paulo"; "chaves"]).
Proof.
  split; [|split; [exact parse_field_blank | vm_compute; split; reflexivity]].
  intros q.
  destruct (get_qs_dict_cases q) as [[Hle (d & E & Hd)]|(k & Hk & E)].
  - split; [|split].
    + split.
      * intros [e He]. congruence.
      * intros [k Hk]. specialize (Hle k). lia.
    + intros e He. congruence.
    + intros d' He k. assert (d' = d) by congruence. subst d'. apply Hd.
  - split; [|split].
    + split; [intros _; exists k; exact Hk | intros _; eexists; exact E].
    + intros e He. exists k. split; [exact Hk | congruence].
    + intros d He. congruence.
Qed.

Lemma get_qs_dict_duplicates_witness :
  (forall k, dict_get k [("x", "1")]
             = match values_of k (urllib.parse_qsl "name=&x=1") with
               | [v] => Some v
               | _ => None
               end)
  /\ urllib.parse_field "name" = []
  /\ exists k, (2 <= List.length (values_of k (urllib.parse_qsl "a=1&b=2&a=3")))%nat
               /\ ValueError_values ["1"; "3"]
                  = ValueError_values (values_of k (urllib.parse_qsl "a=1&b=2&a=3")).
Proof.
  destruct get_qs_dict_duplicates as [H [Hblank _]].
  split; [|split].
  - apply (proj2 (proj2 (H "name=&x=1"))). vm_compute. reflexivity.
  - apply (Hblank "name"). reflexivity.
  - apply (proj1 (proj2 (H "a=1&b=2&a=3"))). vm_compute. reflexivity.
Defined.

(** C7.  [declare_info] builds the record from the values of exactly the nine
    recognised keys of the decoded mapping: it returns the record [f] exactly
    when the mapping carries the nine fields of [f]; it raises the missing
    argument [TypeError] when one of the nine keys is absent, naming that key;
    its result depends only on the nine keys, so setting or deleting any other
    key, the signature key included, changes nothing. *)
Theorem declare_info_projection :
  (forall d f, carries d f <-> declare_info d = Ok f)
  /\ (forall d k, In k B02K_KEYS -> dict_get k d = None ->
        declare_info d = Raise (TypeError_missing (filter (absent d) B02K_KEYS))
        /\ In k (filter (absent d) B02K_KEYS))
  /\ (forall d d', (forall k, In k B02K_KEYS -> dict_get k d = dict_get k d') ->
        declare_info d = declare_info d')
  /\ (forall d k v, ~ In k B02K_KEYS ->
        declare_info (dict_set k v d) = declare_info d
        /\ declare_info (dict_del k d) = declare_info d)
  /\ ~ In B02K_MAC B02K_KEYS.
Proof.
  repeat split.
  - rewrite declare_info_bind. apply B02KInfo_bind_carries.
  - rewrite declare_info_bind. apply B02KInfo_bind_Ok.
  - rewrite declare_info_bind. eapply B02KInfo_bind_missing; eassumption.
  - apply filter_In. split; [assumption|]. unfold absent.
    match goal with H : dict_get _ _ = None |- _ => rewrite H end. reflexivity.
  - intros d d' H. rewrite !declare_info_bind. apply B02KInfo_bind_ext, H.
  - rewrite !declare_info_bind. apply B02KInfo_bind_ext. intros k' Hk'.
    rewrite dict_get_set. destruct (String.eqb k k') eqn:E; [|reflexivity].
    apply String.eqb_eq in E. subst k'. contradiction.
  - rewrite !declare_info_bind. apply B02KInfo_bind_ext. intros k' Hk'.
    rewrite dict_get_del. destruct (String.eqb k k') eqn:E; [|reflexivity].
    apply String.eqb_eq in E. subst k'. contradiction.
  - simpl. intuition discriminate.
Qed.

Lemma declare_info_projection_witness :
  declare_info (("Invalid-Key", "Invalid-Value") :: B02KDICT) = Ok B02KINFO
  /\ carries B02KDICT B02KINFO
  /\ declare_info (tl B02KDICT) = Raise (TypeError_missing ["B02K_VERS"])
  /\ declare_info (dict_set B02K_MAC SIGNATURE B02KDICT) = declare_info B02KDICT
  /\ declare_info (dict_del "Invalid-Key" (("Invalid-Key", "Invalid-Value") :: B02KDICT))
     = declare_info (("Invalid-Key", "Invalid-Value") :: B02KDICT).
Proof.
  destruct declare_info_projection as (H1 & H2 & H3 & H4 & H5).
  split; [|split; [|split; [|split]]].
  - apply (proj1 (H1 _ _)). reflexivity.
  - apply (proj2 (H1 _ _)). reflexivity.
  - apply (H2 (tl B02KDICT) "B02K_VERS"); [simpl; tauto | reflexivity].
  - apply (H4 B02KDICT B02K_MAC SIGNATURE). exact H5.
  - apply (H4 (("Invalid-Key", "Invalid-Value") :: B02KDICT) "Invalid-Key"
              "Invalid-Value").
    simpl. intuition discriminate.
Defined.

(** ** Names and the success redirect *)

(** The fixtures of the test suite: the valid URL gives the success URL, the
    URL with a corrupted signature the error URL, and the percent-encoded
    Latin-1 name decodes with one replacement character for each byte that is
    not UTF-8. *)
Example test_valid_redirect_url (P : Platform) :
  get_redirect_url VALID_URL INPUT_SECRET OUTPUT_SECRET ERROR_URL
  = Ok SUCCESS_URL.
Proof. vm_compute. reflexivity. Qed.

Example test_invalid_redirect_url (P : Platform) :
  get_redirect_url INVALID_URL INPUT_SECRET OUTPUT_SECRET ERROR_URL
  = Ok ERROR_URL.
Proof. vm_compute. reflexivity. Qed.

Example test_non_ascii_get_qs_dict :
  get_qs_dict NON_ASCII_QUERYSTRING
  = Ok [("B02K_CUSTNAME",
         Str.of_bytes [86; 0xEF; 0xBF; 0xBD; 73; 78; 0xEF; 0xBF; 0xBD; 32;
                       77; 0xEF; 0xBF; 0xBD; 75; 73])].
Proof. vm_compute. reflexivity. Qed.

(** C5.  On the names of the test suite [format_names] gives the title-cased
    first word and the title-cased rest.  On a name of one word it gives a
    single item, and [build_success_url] raises while unpacking it: the
    redirect has no empty last name. *)
Theorem format_names_one_word (P : Platform) :
  format_names "paulo chaves" = ["Paulo"; "Chaves"]
  /\ format_names "paulo r m chaves" = ["Paulo"; "R M Chaves"]
  /\ format_names "paulo" = ["Paulo"]
  /\ format_names (B02K_CUSTNAME ONE_NAME_INFO) = ["First"]
  /\ build_success_url ONE_NAME_INFO OUTPUT_SECRET
     = Raise (ValueError "not enough values to unpack (expected 2, got 1)").
Proof. vm_compute. repeat split. Qed.

(** C4.  On a URL whose signature verifies and whose customer name is one
    word, [get_redirect_url] reaches the comparison with the signature it
    recomputes, and raises from [build_success_url] instead of returning a
    success redirect. *)
Theorem verified_one_word_name_raises (P : Platform) :
  reaches_comparison ONE_NAME_URL ONE_NAME_INFO
                     (calculate_signature ONE_NAME_INFO INPUT_SECRET)
  /\ get_redirect_url ONE_NAME_URL INPUT_SECRET OUTPUT_SECRET ERROR_URL
     = Raise (ValueError "not enough values to unpack (expected 2, got 1)").
Proof.
  split; [|vm_compute; reflexivity].
  eexists. split; [eexists; split; vm_compute; reflexivity|].
  split; vm_compute; reflexivity.
Qed.

(** ** Signing, then verifying *)

(** A field with an empty value is written [B02K_CUSTID=] in the query and
    dropped by the decoder: the URL that carries the record and its own
    signature raises the missing argument [TypeError]. *)
Lemma signed_blank_field_raises :
  signed_url BLANK_CUSTID_INFO INPUT_SECRET
  = "http://someserver.com/?B02K_VERS=0003&B02K_TIMESTMP=50020181017141433899056&B02K_IDNBR=2512408990&B02K_STAMP=20010125140015123456&B02K_CUSTNAME=FIRST+LAST&B02K_KEYVERS=0001&B02K_ALG=03&B02K_CUSTID=&B02K_CUSTTYPE=02&B02K_MAC=BA0BDCAA1B5E1CE24D70766940EF544CA203DAF844EB707DDF3B4ECCABF8AE72"
  /\ get_redirect_url (P := ascii_platform)
       (signed_url BLANK_CUSTID_INFO INPUT_SECRET)
       INPUT_SECRET OUTPUT_SECRET ERROR_URL
     = Raise (TypeError_missing ["B02K_CUSTID"])
  /\ build_success_url (P := ascii_platform) BLANK_CUSTID_INFO OUTPUT_SECRET
     = Ok SUCCESS_URL.
Proof. vm_compute. repeat split. Qed.

(** ** Errors that reach the caller *)

(** C8.  When the decoded query holds the nine protocol fields but not the
    signature key, [get_redirect_url] raises the [KeyError] of the missing
    key: it returns neither a success redirect nor the error URL. *)
Theorem missing_signature_key_raises {P : Platform}
        (url inputsecret outputsecret error_url : str) (qs : dict str)
        (f : B02KInfo) :
  decoded_query url qs -> carries qs f -> dict_get B02K_MAC qs = None ->
  get_redirect_url url inputsecret outputsecret error_url
  = Raise (KeyError B02K_MAC)
  /\ forall s, get_redirect_url url inputsecret outputsecret error_url <> Ok s.
Proof.
  intros Hq Hf Hmac.
  assert (E : get_redirect_url url inputsecret outputsecret error_url
              = Raise (KeyError B02K_MAC)).
  { apply (get_redirect_url_no_mac _ _ _ _ qs f Hq); [|exact Hmac].
    apply declare_info_carries, Hf. }
  split; [exact E|]. intros s. rewrite E. discriminate.
Qed.

Lemma missing_signature_key_raises_witness :
  get_redirect_url (P := ascii_platform) NO_MAC_URL INPUT_SECRET OUTPUT_SECRET
                   ERROR_URL
  = Raise (KeyError B02K_MAC).
Proof.
  apply (missing_signature_key_raises (P := ascii_platform) NO_MAC_URL
           INPUT_SECRET OUTPUT_SECRET ERROR_URL B02KDICT B02KINFO).
  - eexists. split; vm_compute; reflexivity.
  - reflexivity.
  - reflexivity.
Defined.

(** C10.  [get_qs_dict] returns the empty mapping on the empty string, and
    [get_redirect_url] on a URL whose query component is empty raises the
    [TypeError] of the nine missing fields: it returns neither a success
    redirect nor the error URL. *)
Theorem empty_query_raises :
  get_qs_dict EmptyString = Ok []
  /\ forall (P : Platform) (url inputsecret outputsecret error_url : str)
            (parsed : urllib.ParseResult),
       urllib.urlparse url = Ok parsed ->
       urllib.query parsed = EmptyString ->
       get_redirect_url url inputsecret outputsecret error_url
       = Raise (TypeError_missing B02K_KEYS).
Proof.
  split; [reflexivity|].
  intros P url inputsecret outputsecret error_url parsed Hp Hq.
  apply (get_redirect_url_projection_error _ _ _ _ []).
  - exists parsed. rewrite Hq. split; [exact Hp | reflexivity].
  - reflexivity.
Qed.

Lemma empty_query_raises_witness :
  get_redirect_url (P := ascii_platform) NO_QUERY_URL INPUT_SECRET OUTPUT_SECRET
                   ERROR_URL
  = Raise (TypeError_missing B02K_KEYS).
Proof.
  eapply (proj2 empty_query_raises ascii_platform NO_QUERY_URL).
  - vm_compute. reflexivity.
  - reflexivity.
Defined.

(** ** What the result depends on *)



(** * Further properties *)

(** ** get_qs_dict on a query written by urlencode *)

Lemma parse_field_urlencode_any (kv : str * str) :
  utf8_text (fst kv) -> utf8_text (snd kv) ->
  urllib.parse_field (urlencode_field kv) = if nonblank kv then [kv] else [].
Proof.
  destruct kv as [k v]. unfold nonblank. cbn [fst snd]. intros Hk Hv.
  destruct (String.eqb v EmptyString) eqn:E; cbn [negb].
  - apply String.eqb_eq in E. subst v.
    unfold urllib.parse_field, Str.split_max1, urlencode_field. cbn [fst snd].
    change ("=" ++ urllib.quote_plus EmptyString) with (String "=" EmptyString).
    rewrite partition_append
      by exact (contains_all_false urlencoded_char "=" _ eq_refl
                  (quote_plus_chars k)).
    reflexivity.
  - apply String.eqb_neq in E.
    apply (parse_field_urlencode_field (k, v) Hk (conj E Hv)).
Qed.

Lemma parse_qsl_urlencode_any (d : dict str) :
  text_items d -> urllib.parse_qsl (urllib.urlencode d) = filter nonblank d.
Proof.
  intros Hd. destruct d as [|kv0 d0] eqn:Ed; [reflexivity|]. rewrite <- Ed in *.
  assert (Hfields : flat_map urllib.parse_field (map urlencode_field d)
                    = filter nonblank d).
  { clear Ed. induction Hd as [|kv d [Hk Hv] Hd IH]; [reflexivity|].
    cbn [map flat_map filter].
    rewrite (parse_field_urlencode_any kv Hk Hv), IH.
    destruct (nonblank kv); reflexivity. }
  assert (Hsplit : Str.split "&" (urllib.urlencode d) = map urlencode_field d).
  { rewrite urlencode_fields. apply split_join.
    - rewrite Ed. discriminate.
    - apply Forall_forall. intros s Hs. apply in_map_iff in Hs.
      destruct Hs as [kv [<- _]]. apply urlencode_field_no_amp. }
  unfold urllib.parse_qsl. destruct (urllib.urlencode d) eqn:Eq.
  - exfalso. rewrite Ed in Hsplit. cbn in Hsplit.
    injection Hsplit as Hfield _. symmetry in Hfield.
    unfold urlencode_field in Hfield.
    destruct (urllib.quote_plus (fst kv0)); discriminate Hfield.
  - rewrite Hsplit. exact Hfields.
Qed.

Lemma NoDup_dict_keys_filter {V : Type} (p : str * V -> bool) (d : dict V) :
  NoDup (dict_keys d) -> NoDup (dict_keys (filter p d)).
Proof.
  unfold dict_keys. induction d as [|kv d IH]; simpl; [intros H; exact H|].
  intros H. inversion H as [|? ? Hnotin Hd]; subst.
  destruct (p kv); simpl; [|apply IH, Hd].
  constructor; [|apply IH, Hd].
  intros Hin. apply Hnotin. apply in_map_iff in Hin.
  destruct Hin as [kv' [E Hin]]. apply filter_In in Hin.
  apply in_map_iff. exists kv'. tauto.
Qed.

Lemma get_qs_dict_urlencode_any (d : dict str) :
  NoDup (dict_keys d) -> text_items d ->
  get_qs_dict (urllib.urlencode d) = Ok (filter nonblank d).
Proof.
  intros Hkeys Hd. unfold get_qs_dict, urllib.parse_qs.
  rewrite (parse_qsl_urlencode_any d Hd).
  assert (Hk : NoDup (dict_keys (@nil (str * list str))
                      ++ dict_keys (filter nonblank d))%list)
    by (apply NoDup_dict_keys_filter, Hkeys).
  rewrite parse_qs_fold_distinct by exact Hk.
  apply (get_qs_dict_loop_distinct (filter nonblank d) []). exact Hk.
Qed.

(** X1.  Decoding the query string that [urlencode] writes for a mapping of
    text gives the mapping back, in order, without the keys whose value is
    empty: [get_qs_dict] undoes the percent and plus quoting of every key and
    value, and silently loses the blank ones. *)
Theorem get_qs_dict_urlencode_round_trip (d : dict str) :
  NoDup (dict_keys d) -> text_items d ->
  get_qs_dict (urllib.urlencode d) = Ok (filter nonblank d).
Proof. exact (get_qs_dict_urlencode_any d). Qed.

Lemma get_qs_dict_urlencode_round_trip_witness :
  get_qs_dict (urllib.urlencode [("first name", "a&b=c d+e%/");
                                 ("empty", EmptyString);
                                 ("B02K_MAC", "x")])
  = Ok [("first name", "a&b=c d+e%/"); ("B02K_MAC", "x")].
Proof.
  apply (get_qs_dict_urlencode_round_trip
           [("first name", "a&b=c d+e%/"); ("empty", EmptyString);
            ("B02K_MAC", "x")]).
  - repeat (constructor; [simpl; intuition discriminate|]). constructor.
  - repeat constructor; vm_compute; reflexivity.
Defined.

(** ** The values that get_qs_dict returns *)

Lemma decode_pending_nonempty (rest : bytes) :
  forall (seen : bytes) (need : nat) (lo hi : Z),
    urllib.decode_from (urllib.Pending seen need lo hi) rest <> [].
Proof.
  induction rest as [|b rest IH]; intros seen need lo hi; [discriminate|].
  cbn [urllib.decode_from urllib.utf8_step].
  destruct (urllib.between lo hi b).
  - destruct need as [|[|n]].
    + destruct seen; discriminate.
    + destruct seen; discriminate.
    + apply IH.
  - destruct (urllib.utf8_start b) as [out st']. discriminate.
Qed.

Lemma decode_start_nonempty (b : Z) (rest : bytes) :
  urllib.decode_from urllib.Start (b :: rest) <> [].
Proof.
  cbn [urllib.decode_from urllib.utf8_step]. unfold urllib.utf8_start.
  destruct (b <? 128); [discriminate|].
  destruct (urllib.utf8_lead b) as [[[n lo] hi]|]; [|discriminate].
  apply decode_pending_nonempty.
Qed.

Lemma decode_replace_nonempty (bs : bytes) :
  bs <> [] -> urllib.decode_replace bs <> EmptyString.
Proof.
  destruct bs as [|b rest]; [congruence|]. intros _.
  unfold urllib.decode_replace, Str.of_bytes.
  pose proof (decode_start_nonempty b rest) as H.
  destruct (urllib.decode_from urllib.Start (b :: rest)); [congruence|].
  discriminate.
Qed.

Lemma unquote_item_nonempty (item : str) : urllib.unquote_item item <> [].
Proof.
  unfold urllib.unquote_item.
  destruct item as [|a [|b rest]]; try discriminate.
  destruct (urllib.ishex a && urllib.ishex b); discriminate.
Qed.

Lemma unquote_to_bytes_nonempty (s : str) :
  s <> EmptyString -> urllib.unquote_to_bytes s <> [].
Proof.
  destruct s as [|c s]; [congruence|]. intros _.
  destruct (Ascii.eqb c "%") eqn:E.
  - apply Ascii.eqb_eq in E. subst c. unfold urllib.unquote_to_bytes.
    cbn [Str.split Ascii.eqb Bool.eqb]. cbn [Str.encode list_ascii_of_string map app].
    destruct (Str.split "%" s) as [|h t] eqn:Es.
    + exfalso. exact (split_nonempty _ _ Es).
    + cbn [flat_map]. pose proof (unquote_item_nonempty h) as H.
      destruct (urllib.unquote_item h); [congruence|]. discriminate.
  - rewrite (unquote_to_bytes_cons c s E). discriminate.
Qed.

Lemma unquote_runs_nonempty (s : str) :
  forall run : str,
    run ++ s <> EmptyString -> urllib.unquote_runs run s <> EmptyString.
Proof.
  induction s as [|c s IH]; intros run H.
  - rewrite append_nil_r in H. cbn [urllib.unquote_runs].
    apply decode_replace_nonempty, unquote_to_bytes_nonempty, H.
  - cbn [urllib.unquote_runs]. destruct (Str.isascii c).
    + apply IH. destruct run; discriminate.
    + destruct (urllib.decode_replace (urllib.unquote_to_bytes run));
        discriminate.
Qed.

Lemma unquote_nonempty (s : str) :
  s <> EmptyString -> urllib.unquote s <> EmptyString.
Proof.
  intros H. unfold urllib.unquote.
  destruct (negb (Str.contains "%" s)); [exact H|].
  apply unquote_runs_nonempty. exact H.
Qed.

Lemma replace_nonempty (a b : ascii) (s : str) :
  s <> EmptyString -> Str.replace a b s <> EmptyString.
Proof. destruct s; [congruence | discriminate]. Qed.

Lemma parse_field_values (name_value : str) (nv : str * str) :
  In nv (urllib.parse_field name_value) -> snd nv <> EmptyString.
Proof.
  unfold urllib.parse_field.
  destruct (Str.split_max1 "=" name_value) as [|name [|value [|x l]]];
    try contradiction.
  destruct value as [|c value]; [contradiction|].
  intros [<-|[]]. cbn [snd].
  apply unquote_nonempty, replace_nonempty. discriminate.
Qed.

Lemma parse_qsl_values (q : str) (nv : str * str) :
  In nv (urllib.parse_qsl q) -> snd nv <> EmptyString.
Proof.
  unfold urllib.parse_qsl. intros H. apply in_flat_map in H.
  destruct H as [name_value [_ H]]. exact (parse_field_values _ _ H).
Qed.

Lemma fold_dict_set_NoDup (items : list (str * list str)) :
  forall qs : dict str,
    NoDup (dict_keys qs) ->
    NoDup (dict_keys (fold_left (fun acc kv =>
                                   dict_set (fst kv) (hd EmptyString (snd kv)) acc)
                                items qs)).
Proof.
  induction items as [|kv items IH]; intros qs H; [exact H|].
  simpl. apply IH, NoDup_dict_keys_set, H.
Qed.

(** X2.  In a mapping that [get_qs_dict] returns the keys are distinct and no
    value is the empty string: every value is one of the decoded values of
    the query, and a field with a blank value never reaches the mapping. *)
Theorem get_qs_dict_values_nonblank (q : str) (d : dict str) :
  get_qs_dict q = Ok d ->
  NoDup (dict_keys d)
  /\ forall k v, In (k, v) d ->
                 v <> EmptyString /\ In (k, v) (urllib.parse_qsl q).
Proof.
  intros Hq.
  assert (Hnodup : NoDup (dict_keys d)).
  { revert Hq. unfold get_qs_dict.
    destruct (Forall_dec (fun kv : str * list str => List.length (snd kv) = 1%nat)
                         (fun kv => Nat.eq_dec (List.length (snd kv)) 1)
                         (urllib.parse_qs q)) as [Hall|Hnot].
    - rewrite (get_qs_dict_loop_Ok _ [] Hall). intros [= <-].
      apply fold_dict_set_NoDup. constructor.
    - destruct (get_qs_dict_loop_Raise _ [] Hnot) as (k & v & _ & _ & E).
      rewrite E. discriminate. }
  split; [exact Hnodup|].
  intros k v Hin. apply (In_dict_get d k v Hnodup) in Hin.
  destruct (get_qs_dict_cases q) as [[_ (d' & E & Hd)]|(k' & _ & E)];
    [|congruence].
  assert (d' = d) by congruence. subst d'. rewrite Hd in Hin.
  assert (Hv : In (k, v) (urllib.parse_qsl q)).
  { unfold values_of in Hin.
    destruct (filter (fun nv => String.eqb (fst nv) k) (urllib.parse_qsl q))
      as [|[n v0] [|x l]] eqn:Ef; try discriminate.
    injection Hin as <-.
    assert (Hf : In (n, v0) (filter (fun nv => String.eqb (fst nv) k)
                                    (urllib.parse_qsl q)))
      by (rewrite Ef; left; reflexivity).
    apply filter_In in Hf. destruct Hf as [Hf E0]. cbn [fst] in E0.
    apply String.eqb_eq in E0. subst n. exact Hf. }
  split; [|exact Hv]. exact (parse_qsl_values q (k, v) Hv).
Qed.

Lemma get_qs_dict_values_nonblank_witness :
  NoDup (dict_keys [("x", "1"); ("y", "a b")])
  /\ forall k v, In (k, v) [("x", "1"); ("y", "a b")] ->
                 v <> EmptyString
                 /\ In (k, v) (urllib.parse_qsl "x=1&blank=&y=a+b&novalue").
Proof.
  apply (get_qs_dict_values_nonblank "x=1&blank=&y=a+b&novalue").
  vm_compute. reflexivity.
Defined.

(** ** format_names and build_success_url *)

Lemma title_char_space (st : bool) (c : ascii) :
  Ascii.eqb (if st then Str.lower_char c else Str.upper_char c) " "
  = Ascii.eqb c " ".
Proof.
  destruct st; destruct c as [[] [] [] [] [] [] [] []]; vm_compute; reflexivity.
Qed.

Lemma title_from_contains_space (s : str) :
  forall st, Str.contains " " (Str.title_from st s) = Str.contains " " s.
Proof.
  induction s as [|c s IH]; intros st; [reflexivity|].
  cbn [Str.title_from Str.contains]. rewrite title_char_space, IH. reflexivity.
Qed.

Lemma title_from_append_space (a b : str) :
  forall st, Str.title_from st (a ++ String " " b)
             = Str.title_from st a ++ String " " (Str.title_from false b).
Proof.
  induction a as [|c a IH]; intros st.
  - cbn [append Str.title_from]. destruct st; reflexivity.
  - cbn [append Str.title_from]. rewrite IH. reflexivity.
Qed.

Lemma title_isascii {P : Platform} (s : str) :
  Str.all Str.isascii s = true -> Str.title s = Str.title_ascii s.
Proof. intros H. unfold Str.title. rewrite H. reflexivity. Qed.

(** X3.  On an ASCII name [format_names] splits at the first space of the
    name as it was given: the text before it and the whole text after it are
    title-cased each on its own; a name without a space gives one item. *)
Theorem format_names_ascii {P : Platform} (first rest : str) :
  Str.all Str.isascii first = true -> Str.all Str.isascii rest = true ->
  Str.contains " " first = false ->
  format_names (first ++ " " ++ rest)
  = [Str.title_ascii first; Str.title_ascii rest]
  /\ format_names first = [Str.title_ascii first].
Proof.
  intros Hfirst Hrest Hspace. unfold format_names, Str.split_max1. split.
  - rewrite title_isascii
      by (rewrite !all_append, Hfirst, Hrest; reflexivity).
    unfold Str.title_ascii.
    change (" " ++ rest) with (String " " rest).
    rewrite title_from_append_space, partition_append; [reflexivity|].
    rewrite title_from_contains_space. exact Hspace.
  - rewrite (title_isascii first Hfirst).
    rewrite (proj2 (partition_None " " (Str.title_ascii first))); [reflexivity|].
    unfold Str.title_ascii. rewrite title_from_contains_space. exact Hspace.
Qed.

Lemma format_names_ascii_witness :
  format_names (P := ascii_platform) ("paulo" ++ " " ++ "r m chaves")
  = ["Paulo"; "R M Chaves"]
  /\ format_names (P := ascii_platform) "paulo" = ["Paulo"].
Proof.
  apply (format_names_ascii (P := ascii_platform) "paulo" "r m chaves");
    reflexivity.
Defined.

(** X4.  [build_success_url] returns a URL exactly when the title-cased
    customer name contains a space; the URL is then
    [?firstname=<first>&lastname=<last>&hash=<hash>] for the text before and
    after the first space, quoted, with the hash of the two unquoted names.
    Otherwise it raises the unpacking [ValueError].  For an ASCII name the
    title-cased name contains a space exactly when the name does. *)
Theorem build_success_url_needs_space {P : Platform} (f : B02KInfo)
        (secret : str) :
  (Str.contains " " (Str.title (B02K_CUSTNAME f)) = true ->
   exists first last,
     Str.title (B02K_CUSTNAME f) = first ++ " " ++ last
     /\ Str.contains " " first = false
     /\ build_success_url f secret
        = Ok ("?firstname=" ++ urllib.quote_plus first
              ++ "&lastname=" ++ urllib.quote_plus last
              ++ "&hash=" ++ build_success_hash first last secret))
  /\ (Str.contains " " (Str.title (B02K_CUSTNAME f)) = false ->
      build_success_url f secret
      = Raise (ValueError "not enough values to unpack (expected 2, got 1)"))
  /\ (Str.all Str.isascii (B02K_CUSTNAME f) = true ->
      Str.contains " " (Str.title (B02K_CUSTNAME f))
      = Str.contains " " (B02K_CUSTNAME f)).
Proof.
  split; [|split].
  - intros Hspace.
    destruct (format_names_cases (B02K_CUSTNAME f))
      as [[Hno _]|(first & last & Ht & Hfirst & Hn)]; [congruence|].
    exists first, last. split; [exact Ht|]. split; [exact Hfirst|].
    apply build_success_url_two, Hn.
  - apply build_success_url_one.
  - intros Hascii. rewrite (title_isascii _ Hascii).
    apply title_from_contains_space.
Qed.

Lemma build_success_url_needs_space_witness :
  (exists first last,
     Str.title (P := ascii_platform) (B02K_CUSTNAME B02KINFO)
     = first ++ " " ++ last
     /\ Str.contains " " first = false
     /\ build_success_url (P := ascii_platform) B02KINFO OUTPUT_SECRET
        = Ok ("?firstname=" ++ urllib.quote_plus first
              ++ "&lastname=" ++ urllib.quote_plus last
              ++ "&hash=" ++ build_success_hash first last OUTPUT_SECRET))
  /\ build_success_url (P := ascii_platform) ONE_NAME_INFO OUTPUT_SECRET
     = Raise (ValueError "not enough values to unpack (expected 2, got 1)")
  /\ Str.contains " " (Str.title (P := ascii_platform) (B02K_CUSTNAME B02KINFO))
     = Str.contains " " (B02K_CUSTNAME B02KINFO).
Proof.
  split; [|split].
  - apply (proj1 (build_success_url_needs_space (P := ascii_platform) B02KINFO
                    OUTPUT_SECRET)).
    reflexivity.
  - apply (proj1 (proj2 (build_success_url_needs_space (P := ascii_platform)
                           ONE_NAME_INFO OUTPUT_SECRET))).
    reflexivity.
  - apply (proj2 (proj2 (build_success_url_needs_space (P := ascii_platform)
                           B02KINFO OUTPUT_SECRET))).
    reflexivity.
Defined.

(** X5.  The success redirect reads back through the decoder of the inbound
    side: for text names, the query of the URL that [build_success_url]
    returns decodes with [get_qs_dict] to the first name, the last name and
    the hash under the keys [firstname], [lastname], [hash]; a name that is
    empty (a customer name that starts or ends with the space) is missing
    from the decoded mapping. *)
Theorem success_url_decodes {P : Platform} (f : B02KInfo)
        (secret first last : str) :
  format_names (B02K_CUSTNAME f) = [first; last] ->
  utf8_text first -> utf8_text last ->
  exists q,
    build_success_url f secret = Ok ("?" ++ q)
    /\ get_qs_dict q
       = Ok (filter nonblank [("firstname", first); ("lastname", last)]
             ++ [("hash", build_success_hash first last secret)])%list.
Proof.
  intros Hn Hfirst Hlast. eexists. split.
  - unfold build_success_url. rewrite Hn. reflexivity.
  - rewrite get_qs_dict_urlencode_any.
    + cbn [filter]. unfold nonblank at 3. cbn [snd].
      destruct (hexdigest_shape
                  (Str.encode ("firstname=" ++ first ++ "&lastname=" ++ last
                               ++ "#" ++ secret))) as [Hlen _].
      unfold build_success_hash.
      destruct (hashlib.hexdigest _) eqn:E; [discriminate Hlen|].
      cbn [String.eqb negb].
      destruct (nonblank ("firstname", first));
        destruct (nonblank ("lastname", last)); reflexivity.
    + repeat (constructor; [simpl; intuition discriminate|]). constructor.
    + repeat constructor; cbn [fst snd];
        try exact Hfirst; try exact Hlast;
        try (apply ascii_utf8_text; reflexivity).
      apply ascii_utf8_text.
      apply (all_impl lower_hex_char).
      * intros c Hc. apply lower_hex_always_safe in Hc.
        apply quoted_char_isascii. unfold quoted_char. rewrite Hc. reflexivity.
      * apply hexdigest_shape.
Qed.

Lemma success_url_decodes_witness :
  exists q,
    build_success_url (P := ascii_platform) B02KINFO OUTPUT_SECRET
    = Ok ("?" ++ q)
    /\ get_qs_dict q
       = Ok (filter nonblank [("firstname", "First"); ("lastname", "Last")]
             ++ [("hash", build_success_hash "First" "Last" OUTPUT_SECRET)])%list.
Proof.
  apply (success_url_decodes (P := ascii_platform) B02KINFO OUTPUT_SECRET
           "First" "Last"); vm_compute; reflexivity.
Defined.

(** ** What the signatures are computed from *)

Lemma append_longer (a b : str) : a ++ String "&" b <> a.
Proof.
  intros E. apply (f_equal String.length) in E.
  rewrite length_append in E. simpl in E. lia.
Qed.

Lemma append_cut (c : ascii) (a a' r r' : str) :
  Str.contains c a = false -> Str.contains c a' = false ->
  a ++ String c r = a' ++ String c r' -> a = a' /\ r = r'.
Proof.
  intros Ha Ha' E.
  pose proof (partition_append c a r Ha) as H.
  rewrite E, (partition_append c a' r' Ha') in H.
  injection H as -> ->. split; reflexivity.
Qed.

Lemma append_last_inj (c : ascii) (s s' : str) :
  s ++ String c EmptyString = s' ++ String c EmptyString -> s = s'.
Proof.
  revert s'. induction s as [|x s IH]; intros [|y s'] E; simpl in E.
  - reflexivity.
  - injection E as _ E. destruct s'; discriminate E.
  - injection E as _ E. destruct s; discriminate E.
  - injection E as -> E. rewrite (IH s' E). reflexivity.
Qed.

Lemma encode_inj (s s' : str) : Str.encode s = Str.encode s' -> s = s'.
Proof.
  intros E. rewrite <- (of_bytes_encode s), <- (of_bytes_encode s'), E.
  reflexivity.
Qed.

Lemma calculate_signature_unfold (f : B02KInfo) (secret : str) :
  calculate_signature f secret
  = Str.upper (hashlib.hexdigest (Str.encode (canonical_inbound f secret))).
Proof.
  unfold calculate_signature, canonical_inbound, field_values.
  cbn [each_followed_by]. rewrite append_nil_r, !append_assoc. reflexivity.
Qed.

(** X6.  [calculate_signature] does not mark where a value ends: moving a
    piece [&...] from the end of one value to the start of the next, or from
    the last value to the start of the secret, gives a different record with
    the same signature. *)
Theorem calculate_signature_field_boundary
        (a b c vers timestmp idnbr stamp custname keyvers alg custid custtype
           secret : str) :
  calculate_signature
    (mkB02KInfo (a ++ "&" ++ b) c idnbr stamp custname keyvers alg custid
                custtype) secret
  = calculate_signature
      (mkB02KInfo a (b ++ "&" ++ c) idnbr stamp custname keyvers alg custid
                  custtype) secret
  /\ calculate_signature
       (mkB02KInfo vers timestmp idnbr stamp (a ++ "&" ++ b) c alg custid
                   custtype) secret
     = calculate_signature
         (mkB02KInfo vers timestmp idnbr stamp a (b ++ "&" ++ c) alg custid
                     custtype) secret
  /\ calculate_signature
       (mkB02KInfo vers timestmp idnbr stamp custname keyvers alg custid
                   (a ++ "&" ++ b)) c
     = calculate_signature
         (mkB02KInfo vers timestmp idnbr stamp custname keyvers alg custid a)
         (b ++ "&" ++ c)
  /\ mkB02KInfo vers timestmp idnbr stamp (a ++ "&" ++ b) c alg custid
                custtype
     <> mkB02KInfo vers timestmp idnbr stamp a (b ++ "&" ++ c) alg custid
                   custtype.
Proof.
  repeat split.
  - unfold calculate_signature. cbn [B02K_VERS B02K_TIMESTMP B02K_IDNBR
      B02K_STAMP B02K_CUSTNAME B02K_KEYVERS B02K_ALG B02K_CUSTID B02K_CUSTTYPE].
    rewrite !append_assoc. reflexivity.
  - unfold calculate_signature. cbn [B02K_VERS B02K_TIMESTMP B02K_IDNBR
      B02K_STAMP B02K_CUSTNAME B02K_KEYVERS B02K_ALG B02K_CUSTID B02K_CUSTTYPE].
    rewrite !append_assoc. reflexivity.
  - unfold calculate_signature. cbn [B02K_VERS B02K_TIMESTMP B02K_IDNBR
      B02K_STAMP B02K_CUSTNAME B02K_KEYVERS B02K_ALG B02K_CUSTID B02K_CUSTTYPE].
    rewrite !append_assoc. reflexivity.
  - intros E. injection E as E _. exact (append_longer a b E).
Qed.

(** X7.  When no value of a record contains ['&'], the bytes that
    [calculate_signature] hashes determine the nine values and the secret:
    two such records, or two secrets, are never signed from the same bytes. *)
Theorem calculate_signature_input_unambiguous (f f' : B02KInfo)
        (secret secret' : str) :
  Forall (fun v => Str.contains "&" v = false) (field_values f) ->
  Forall (fun v => Str.contains "&" v = false) (field_values f') ->
  calculate_signature f secret
  = Str.upper (hashlib.hexdigest (Str.encode (canonical_inbound f secret)))
  /\ (Str.encode (canonical_inbound f secret)
      = Str.encode (canonical_inbound f' secret') ->
      f = f' /\ secret = secret').
Proof.
  intros Hf Hf'. split; [apply calculate_signature_unfold|].
  intros E. apply encode_inj in E.
  destruct f as [v1 v2 v3 v4 v5 v6 v7 v8 v9].
  destruct f' as [w1 w2 w3 w4 w5 w6 w7 w8 w9].
  unfold canonical_inbound, field_values in *.
  cbn [B02K_VERS B02K_TIMESTMP B02K_IDNBR B02K_STAMP B02K_CUSTNAME
       B02K_KEYVERS B02K_ALG B02K_CUSTID B02K_CUSTTYPE each_followed_by] in *.
  rewrite !append_nil_r, !append_assoc in E.
  repeat match goal with
         | H : Forall _ (_ :: _) |- _ =>
             let Hx := fresh "Hx" in
             apply Forall_cons_iff in H; destruct H as [Hx H]
         end.
  change "&" with (String "&" EmptyString) in E. cbn [append] in E.
  repeat match type of E with
         | ?a ++ String "&" ?r = ?a' ++ String "&" ?r' =>
             let Ea := fresh "Ea" in
             apply append_cut in E; [destruct E as [Ea E]; subst a|assumption..]
         end.
  apply append_last_inj in E. subst secret'. split; reflexivity.
Qed.

Lemma calculate_signature_input_unambiguous_witness :
  Str.encode (canonical_inbound B02KINFO INPUT_SECRET)
  <> Str.encode (canonical_inbound ONE_NAME_INFO INPUT_SECRET).
Proof.
  intros E.
  apply (calculate_signature_input_unambiguous B02KINFO ONE_NAME_INFO
           INPUT_SECRET INPUT_SECRET) in E.
  - destruct E as [E _]. discriminate E.
  - repeat constructor.
  - repeat constructor.
Defined.

Lemma strip_prefix (p a b : str) : p ++ a = p ++ b -> a = b.
Proof.
  induction p as [|c p IH]; simpl; intros E; [exact E|].
  injection E as E. apply IH, E.
Qed.

(** X8.  The text that [build_success_hash] hashes determines the two names
    and the secret when the first name has no ['&'] and the last name has no
    ['#'].  Without that it does not: a piece [&lastname=...] moves from the
    first name to the last, and a piece [#...] from the last name to the
    secret, without changing the hash. *)
Theorem build_success_hash_input (first last secret first' last' secret' : str) :
  build_success_hash first last secret
  = hashlib.hexdigest (Str.encode (canonical_outbound first last secret))
  /\ build_success_hash (first ++ "&lastname=" ++ last) last' secret
  = build_success_hash first (last ++ "&lastname=" ++ last') secret
  /\ build_success_hash first (last ++ "#" ++ last') secret
     = build_success_hash first last (last' ++ "#" ++ secret)
  /\ (Str.contains "&" first = false -> Str.contains "&" first' = false ->
      Str.contains "#" last = false -> Str.contains "#" last' = false ->
      canonical_outbound first last secret
      = canonical_outbound first' last' secret' ->
      first = first' /\ last = last' /\ secret = secret').
Proof.
  split; [reflexivity|]. split; [|split].
  - unfold build_success_hash. rewrite !append_assoc. reflexivity.
  - unfold build_success_hash. rewrite !append_assoc. reflexivity.
  - intros Hf Hf' Hl Hl' E. unfold canonical_outbound in E.
    apply strip_prefix in E.
    change ("&lastname=" ++ last ++ "#" ++ secret)
      with (String "&" ("lastname=" ++ last ++ "#" ++ secret)) in E.
    change ("&lastname=" ++ last' ++ "#" ++ secret')
      with (String "&" ("lastname=" ++ last' ++ "#" ++ secret')) in E.
    apply append_cut in E; [|assumption..]. destruct E as [-> E].
    apply strip_prefix in E.
    change ("#" ++ secret) with (String "#" secret) in E.
    change ("#" ++ secret') with (String "#" secret') in E.
    apply append_cut in E; [|assumption..]. destruct E as [-> ->].
    repeat split.
Qed.

Lemma build_success_hash_input_witness :
  canonical_outbound "First" "Last" "outputsecret"
  <> canonical_outbound "First" "La" "stoutputsecret".
Proof.
  intros E.
  apply (proj2 (proj2 (proj2 (build_success_hash_input
                                "First" "Last" "outputsecret"
                                "First" "La" "stoutputsecret")))) in E;
    [|reflexivity..].
  destruct E as (_ & E & _). discriminate E.
Defined.

(** ** The outcomes of get_redirect_url *)

Lemma bind_Raise {A B : Type} (c : result A) (k : A -> result B)
      (e : exception) :
  bind c k = Raise e ->
  c = Raise e \/ exists a, c = Ok a /\ k a = Raise e.
Proof.
  destruct c as [a|e']; simpl; intros H.
  - right. exists a. split; [reflexivity | exact H].
  - left. injection H as ->. reflexivity.
Qed.

Lemma raise_if_Raise {A : Type} (err : option str) (a : A) (e : exception) :
  urllib.raise_if err a = Raise e -> exists msg, e = ValueError msg.
Proof.
  destruct err as [msg|]; simpl; intros [= <-]. exists msg. reflexivity.
Qed.

Lemma checknetloc_Raise {P : Platform} (netloc : str) (e : exception) :
  urllib._checknetloc netloc = Raise e -> exists msg, e = ValueError msg.
Proof.
  unfold urllib._checknetloc. destruct netloc as [|c netloc]; [discriminate|].
  destruct (Str.all Str.isascii (String c netloc)); [discriminate|].
  apply raise_if_Raise.
Qed.

Lemma netloc_step_Raise {P : Platform} (netloc rest : str) (e : exception) :
  (let lb := Str.contains "[" netloc in
   let rb := Str.contains "]" netloc in
   if (lb && negb rb) || (rb && negb lb)
   then Raise (ValueError "Invalid IPv6 URL")
   else if lb && rb
        then urllib.raise_if (check_bracketed_netloc netloc) (netloc, rest)
        else Ok (netloc, rest)) = Raise e ->
  exists msg, e = ValueError msg.
Proof.
  cbv zeta.
  destruct ((Str.contains "[" netloc && negb (Str.contains "]" netloc))
            || (Str.contains "]" netloc && negb (Str.contains "[" netloc))).
  - intros [= <-]. eexists. reflexivity.
  - destruct (Str.contains "[" netloc && Str.contains "]" netloc);
      [apply raise_if_Raise | discriminate].
Qed.

(** [urlsplit] and [urlparse] raise nothing but [ValueError]. *)
Lemma urlsplit_Raise {P : Platform} (url : str) (e : exception) :
  urllib.urlsplit url = Raise e -> exists msg, e = ValueError msg.
Proof.
  unfold urllib.urlsplit.
  destruct (urllib.split_scheme_of _) as [scheme u].
  intros H. apply bind_Raise in H. destruct H as [H|[[netloc rest] [_ H]]].
  - destruct u as [|c1 u]; [discriminate|].
    destruct c1 as [[] [] [] [] [] [] [] []]; try discriminate.
    destruct u as [|c2 u]; [discriminate|].
    destruct c2 as [[] [] [] [] [] [] [] []]; try discriminate.
    destruct (urllib._splitnetloc _) as [netloc rest].
    exact (netloc_step_Raise netloc rest e H).
  - destruct (match Str.partition "#" rest with
              | Some (h, t) => (h, t)
              | None => (rest, EmptyString)
              end) as [u1 fragment].
    destruct (match Str.partition "?" u1 with
              | Some (h, t) => (h, t)
              | None => (u1, EmptyString)
              end) as [u2 query].
    apply bind_Raise in H. destruct H as [H|[[] [_ H]]]; [|discriminate].
    exact (checknetloc_Raise netloc e H).
Qed.

Lemma urlparse_Raise {P : Platform} (url : str) (e : exception) :
  urllib.urlparse url = Raise e -> exists msg, e = ValueError msg.
Proof.
  unfold urllib.urlparse. intros H. apply bind_Raise in H.
  destruct H as [H|[r [_ H]]]; [exact (urlsplit_Raise url e H)|].
  destruct (urllib.str_in _ _ && _); [|discriminate].
  destruct (urllib._splitparams _); discriminate.
Qed.

Lemma B02KInfo_bind_Raise (d : dict str) (e : exception) :
  B02KInfo_bind d = Raise e ->
  exists k, In k B02K_KEYS /\ dict_get k d = None.
Proof.
  unfold B02KInfo_bind.
  repeat match goal with
         | |- context [match dict_get ?k d with _ => _ end] =>
             destruct (dict_get k d) eqn:?;
             [|intros _; exists k; split; [simpl; tauto | assumption]]
         end.
  discriminate.
Qed.

Lemma declare_info_Raise (d : dict str) (e : exception) :
  declare_info d = Raise e ->
  e = TypeError_missing (filter (absent d) B02K_KEYS)
  /\ filter (absent d) B02K_KEYS <> [].
Proof.
  intros H. pose proof H as H'. rewrite declare_info_bind in H'.
  apply B02KInfo_bind_Raise in H'. destruct H' as (k & Hk & Hnone).
  rewrite declare_info_bind, (B02KInfo_bind_missing d k Hk Hnone) in H.
  injection H as <-. split; [reflexivity|].
  assert (Hin : In k (filter (absent d) B02K_KEYS)).
  { apply filter_In. split; [exact Hk|]. unfold absent. rewrite Hnone.
    reflexivity. }
  intros E. rewrite E in Hin. contradiction.
Qed.

(** X9.  On text, that is on a URL and secrets that have a UTF-8 encoding,
    [get_redirect_url] has six outcomes and no other: it returns the error
    URL it was given; it returns a success redirect
    [?firstname=...&lastname=...&hash=...]; it raises a [ValueError] with a
    message (from the URL parser or from unpacking a one-word name); it
    raises the [ValueError] that holds the two or more values of a duplicated
    key; it raises the [TypeError] naming the protocol fields that are
    missing; or it raises the [KeyError] of the signature key.  A string
    with a lone surrogate, on which [str.encode] raises
    [UnicodeEncodeError], is not text in this sense: by the modelling
    convention it is outside the model. *)
Theorem get_redirect_url_outcomes {P : Platform}
        (url inputsecret outputsecret error_url : str) :
  get_redirect_url url inputsecret outputsecret error_url = Ok error_url
  \/ (exists first last,
        get_redirect_url url inputsecret outputsecret error_url
        = Ok ("?firstname=" ++ urllib.quote_plus first
              ++ "&lastname=" ++ urllib.quote_plus last
              ++ "&hash=" ++ build_success_hash first last outputsecret))
  \/ (exists msg,
        get_redirect_url url inputsecret outputsecret error_url
        = Raise (ValueError msg))
  \/ (exists v,
        get_redirect_url url inputsecret outputsecret error_url
        = Raise (ValueError_values v) /\ (2 <= List.length v)%nat)
  \/ (exists names,
        get_redirect_url url inputsecret outputsecret error_url
        = Raise (TypeError_missing names)
        /\ names <> [] /\ incl names B02K_KEYS)
  \/ get_redirect_url url inputsecret outputsecret error_url
     = Raise (KeyError B02K_MAC).
Proof.
  destruct (urllib.urlparse url) as [parsed|e] eqn:Eparse.
  2:{ right. right. left. destruct (urlparse_Raise url e Eparse) as [msg ->].
      exists msg. apply get_redirect_url_parse_error, Eparse. }
  destruct (get_qs_dict_cases (urllib.query parsed))
    as [[_ (qs & Eqs & _)]|(k & Hk & Eqs)].
  2:{ right. right. right. left. eexists. split; [|exact Hk].
      exact (get_redirect_url_decode_error _ _ _ _ parsed _ Eparse Eqs). }
  assert (Hq : decoded_query url qs) by (exists parsed; split; assumption).
  destruct (declare_info qs) as [f|e] eqn:Ef.
  2:{ right. right. right. right. left.
      destruct (declare_info_Raise qs e Ef) as [-> Hne].
      eexists. split; [|split; [exact Hne|]].
      - exact (get_redirect_url_projection_error _ _ _ _ qs _ Hq Ef).
      - intros x Hx. apply filter_In in Hx. apply Hx. }
  destruct (dict_get B02K_MAC qs) as [mac|] eqn:Emac.
  2:{ right. right. right. right. right.
      exact (get_redirect_url_no_mac _ _ _ _ qs f Hq Ef Emac). }
  rewrite (get_redirect_url_compare url inputsecret outputsecret error_url f mac)
    by (exists qs; repeat split; assumption).
  destruct (String.eqb (calculate_signature f inputsecret) mac);
    [|left; reflexivity].
  right.
  destruct (format_names_cases (B02K_CUSTNAME f))
    as [[Hno _]|(first & last & _ & _ & Hn)].
  - right. left. eexists. apply build_success_url_one, Hno.
  - left. exists first, last. apply build_success_url_two, Hn.
Qed.



(** X11.  The result of [get_redirect_url] depends on the URL only through
    ten values of its decoded query, those of the nine protocol keys and of
    the signature key: two URLs that decode to mappings agreeing on these ten
    keys give the same result, whatever their scheme, host, path, fragment,
    other parameters and order of parameters. *)
Theorem get_redirect_url_ten_keys {P : Platform}
        (url1 url2 inputsecret outputsecret error_url : str)
        (qs1 qs2 : dict str) :
  decoded_query url1 qs1 -> decoded_query url2 qs2 ->
  (forall k, In k (B02K_MAC :: B02K_KEYS) -> dict_get k qs1 = dict_get k qs2) ->
  get_redirect_url url1 inputsecret outputsecret error_url
  = get_redirect_url url2 inputsecret outputsecret error_url.
Proof.
  intros H1 H2 Hsame.
  rewrite (get_redirect_url_decoded _ _ _ _ qs1 H1),
    (get_redirect_url_decoded _ _ _ _ qs2 H2).
  rewrite !declare_info_bind.
  rewrite (B02KInfo_bind_ext qs1 qs2)
    by (intros k Hk; apply Hsame; right; exact Hk).
  unfold getitem. rewrite (Hsame B02K_MAC) by (left; reflexivity).
  reflexivity.
Qed.

Lemma get_redirect_url_ten_keys_witness :
  get_redirect_url (P := ascii_platform) VALID_URL INPUT_SECRET OUTPUT_SECRET
                   ERROR_URL
  = get_redirect_url (P := ascii_platform) REORDERED_URL INPUT_SECRET
                     OUTPUT_SECRET ERROR_URL.
Proof.
  apply (get_redirect_url_ten_keys (P := ascii_platform) VALID_URL
           REORDERED_URL INPUT_SECRET OUTPUT_SECRET ERROR_URL VALID_QS
           REORDERED_QS).
  - eexists. split; vm_compute; reflexivity.
  - eexists. split; vm_compute; reflexivity.
  - intros k Hk. simpl in Hk.
    repeat (destruct Hk as [<-|Hk]; [reflexivity|]). contradiction.
Defined.

(** ** A record through the query string *)

Lemma dict_get_filter_nonblank (d : dict str) (k : str) :
  NoDup (dict_keys d) ->
  dict_get k (filter nonblank d)
  = match dict_get k d with
    | Some EmptyString => None
    | other => other
    end.
Proof.
  unfold dict_keys. induction d as [|[k0 v0] d IH]; [reflexivity|].
  intros Hd. inversion Hd as [|? ? Hnotin Hd']; subst.
  cbn [filter]. unfold nonblank at 1. cbn [snd dict_get].
  destruct (String.eqb k0 k) eqn:E.
  - apply String.eqb_eq in E. subst k0.
    destruct v0 as [|c v0]; cbn [String.eqb negb dict_get].
    + rewrite (IH Hd'). rewrite (proj2 (dict_get_None_keys d k) Hnotin).
      reflexivity.
    + rewrite String.eqb_refl. reflexivity.
  - destruct (negb (String.eqb v0 EmptyString)); cbn [dict_get];
      [rewrite E|]; apply IH, Hd'.
Qed.

Lemma record_items_keys (f : B02KInfo) : dict_keys (record_items f) = B02K_KEYS.
Proof. reflexivity. Qed.

Lemma B02K_KEYS_NoDup : NoDup B02K_KEYS.
Proof. repeat (constructor; [simpl; intuition discriminate|]). constructor. Qed.

Lemma record_items_text (f : B02KInfo) :
  Forall utf8_text (field_values f) -> text_items (record_items f).
Proof.
  intros H. unfold text_items, record_items, field_values in *.
  repeat match goal with
         | H : Forall _ (_ :: _) |- _ =>
             let Hx := fresh "Hx" in
             apply Forall_cons_iff in H; destruct H as [Hx H]
         end.
  cbn [combine B02K_KEYS].
  repeat (constructor;
          [split; [apply ascii_utf8_text; reflexivity | cbn [snd]; assumption]
          |]).
  constructor.
Qed.

(** X12.  A record written as a query string and read back: for a record of
    text values, [get_qs_dict] on the [urlencode] of its nine items returns
    the items with a non-empty value, and [declare_info] on that mapping
    gives the record back when no value is empty, and otherwise raises the
    [TypeError] that names each field whose value is empty. *)
Theorem record_query_round_trip (f : B02KInfo) :
  Forall utf8_text (field_values f) ->
  get_qs_dict (urllib.urlencode (record_items f))
  = Ok (filter nonblank (record_items f))
  /\ (Forall (fun v => v <> EmptyString) (field_values f) ->
      declare_info (filter nonblank (record_items f)) = Ok f)
  /\ (forall k, dict_get k (record_items f) = Some EmptyString ->
      declare_info (filter nonblank (record_items f))
      = Raise (TypeError_missing
                 (filter (absent (filter nonblank (record_items f))) B02K_KEYS))
      /\ In k (filter (absent (filter nonblank (record_items f))) B02K_KEYS)).
Proof.
  intros Htext.
  assert (Hkeys : NoDup (dict_keys (record_items f)))
    by (rewrite record_items_keys; exact B02K_KEYS_NoDup).
  split; [|split].
  - apply get_qs_dict_urlencode_any; [exact Hkeys|].
    apply record_items_text, Htext.
  - intros Hne. apply declare_info_carries. unfold carries.
    unfold field_values in Hne.
    repeat match goal with
           | H : Forall _ (_ :: _) |- _ =>
               let Hx := fresh "Hx" in
               apply Forall_cons_iff in H; destruct H as [Hx H]
           end.
    cbn [map B02K_KEYS]. rewrite !(dict_get_filter_nonblank _ _ Hkeys).
    destruct f as [v1 v2 v3 v4 v5 v6 v7 v8 v9].
    cbn [B02K_VERS B02K_TIMESTMP B02K_IDNBR B02K_STAMP B02K_CUSTNAME
         B02K_KEYVERS B02K_ALG B02K_CUSTID B02K_CUSTTYPE] in *.
    unfold record_items, field_values.
    cbn [B02K_VERS B02K_TIMESTMP B02K_IDNBR B02K_STAMP B02K_CUSTNAME
         B02K_KEYVERS B02K_ALG B02K_CUSTID B02K_CUSTTYPE combine B02K_KEYS
         dict_get String.eqb Ascii.eqb Bool.eqb map].
    destruct v1; [congruence|]. destruct v2; [congruence|].
    destruct v3; [congruence|]. destruct v4; [congruence|].
    destruct v5; [congruence|]. destruct v6; [congruence|].
    destruct v7; [congruence|]. destruct v8; [congruence|].
    destruct v9; [congruence|]. reflexivity.
  - intros k Hk.
    assert (Hin : In k B02K_KEYS).
    { apply dict_get_In in Hk. apply (in_map fst) in Hk.
      rewrite <- (record_items_keys f). exact Hk. }
    assert (Hnone : dict_get k (filter nonblank (record_items f)) = None)
      by (rewrite (dict_get_filter_nonblank _ _ Hkeys), Hk; reflexivity).
    split.
    + rewrite declare_info_bind. exact (B02KInfo_bind_missing _ k Hin Hnone).
    + apply filter_In. split; [exact Hin|]. unfold absent. rewrite Hnone.
      reflexivity.
Qed.

Lemma record_query_round_trip_witness :
  (declare_info (filter nonblank (record_items B02KINFO)) = Ok B02KINFO)
  /\ declare_info (filter nonblank (record_items BLANK_CUSTID_INFO))
     = Raise (TypeError_missing
                (filter (absent (filter nonblank (record_items BLANK_CUSTID_INFO)))
                        B02K_KEYS)).
Proof.
  split.
  - apply (proj1 (proj2 (record_query_round_trip B02KINFO
                           ltac:(repeat constructor)))).
    repeat constructor; discriminate.
  - apply (proj2 (proj2 (record_query_round_trip BLANK_CUSTID_INFO
                           ltac:(repeat constructor))) "B02K_CUSTID").
    reflexivity.
Defined.

(** ** A signature accepted for another record *)

Lemma calculate_signature_shift_name
      (a b c vers timestmp idnbr stamp alg custid custtype secret : str) :
  calculate_signature
    (mkB02KInfo vers timestmp idnbr stamp (a ++ "&" ++ b) c alg custid custtype)
    secret
  = calculate_signature
      (mkB02KInfo vers timestmp idnbr stamp a (b ++ "&" ++ c) alg custid
                  custtype) secret.
Proof.
  unfold calculate_signature. cbn [B02K_VERS B02K_TIMESTMP B02K_IDNBR
    B02K_STAMP B02K_CUSTNAME B02K_KEYVERS B02K_ALG B02K_CUSTID B02K_CUSTTYPE].
  rewrite !append_assoc. reflexivity.
Qed.

(** X13.  A signature made for a record whose customer name ends with a
    piece [&b] is accepted by [get_redirect_url] for the record whose name
    lacks that piece and whose key version starts with [b&]: the call
    proceeds to the success redirect of that other record. *)
Theorem get_redirect_url_accepts_shifted_name {P : Platform}
        (url inputsecret outputsecret error_url : str) (qs : dict str)
        (a b c vers timestmp idnbr stamp alg custid custtype : str) :
  decoded_query url qs ->
  carries qs (mkB02KInfo vers timestmp idnbr stamp a (b ++ "&" ++ c) alg
                         custid custtype) ->
  dict_get B02K_MAC qs
  = Some (calculate_signature
            (mkB02KInfo vers timestmp idnbr stamp (a ++ "&" ++ b) c alg custid
                        custtype) inputsecret) ->
  get_redirect_url url inputsecret outputsecret error_url
  = build_success_url
      (mkB02KInfo vers timestmp idnbr stamp a (b ++ "&" ++ c) alg custid
                  custtype) outputsecret.
Proof.
  intros Hq Hf Hmac. apply get_redirect_url_match. exists qs.
  split; [exact Hq|]. split; [apply declare_info_carries, Hf|].
  rewrite Hmac, calculate_signature_shift_name. reflexivity.
Qed.

Lemma get_redirect_url_accepts_shifted_name_witness :
  get_redirect_url (P := ascii_platform)
    ("http://someserver.com/?"
     ++ urllib.urlencode (record_items SHIFTED_TO
                          ++ [(B02K_MAC,
                               calculate_signature SHIFTED_FROM INPUT_SECRET)])%list)
    INPUT_SECRET OUTPUT_SECRET ERROR_URL
  = Ok SUCCESS_URL.
Proof.
  refine (eq_trans
            (get_redirect_url_accepts_shifted_name (P := ascii_platform)
               _ INPUT_SECRET OUTPUT_SECRET ERROR_URL
               (record_items SHIFTED_TO
                ++ [(B02K_MAC, calculate_signature SHIFTED_FROM INPUT_SECRET)])%list
               "FIRST LAST" "X" "0001" "0003" "50020181017141433899056"
               "2512408990" "20010125140015123456" "03" "9984" "02" _ _ _) _).
  - eexists. split; vm_compute; reflexivity.
  - reflexivity.
  - reflexivity.
  - vm_compute. reflexivity.
Defined.

(** ** The characters of the success redirect *)

Lemma query_char_facts (c : ascii) :
  query_char c = true ->
  Str.isascii c = true /\ Ascii.eqb c " " = false /\ Ascii.eqb c "#" = false
  /\ Ascii.eqb c "?" = false.
Proof.
  destruct c as [[] [] [] [] [] [] [] []]; vm_compute; intros H;
    first [discriminate H | repeat split].
Qed.

(** X14.  A URL that [build_success_url] returns is a ['?'] followed by
    URL-safe ASCII only: letters, digits, [_.-~], ['%'], ['+'], ['&'] and
    ['='].  It holds no space, no ['#'], no second ['?'] and no byte outside
    ASCII, whatever the customer name and the secret are. *)
Theorem build_success_url_chars {P : Platform} (f : B02KInfo)
        (secret url : str) :
  build_success_url f secret = Ok url ->
  exists q,
    url = String "?" q
    /\ Str.all query_char q = true
    /\ Str.all Str.isascii url = true
    /\ Str.contains " " url = false
    /\ Str.contains "#" url = false
    /\ Str.contains "?" q = false.
Proof.
  unfold build_success_url.
  destruct (format_names (B02K_CUSTNAME f)) as [|first [|last [|x l]]];
    try discriminate.
  intros [= <-]. eexists. split; [reflexivity|].
  pose proof (urlencode_chars
                [("firstname", first); ("lastname", last);
                 ("hash", build_success_hash first last secret)]) as Hq.
  split; [exact Hq|].
  cbn [Str.all Str.contains].
  change (Ascii.eqb "?" " ") with false. change (Ascii.eqb "?" "#") with false.
  change (Str.isascii "?") with true. cbn [andb orb].
  repeat split.
  - apply (all_impl query_char); [|exact Hq]. intros c Hc.
    apply (query_char_facts c Hc).
  - apply (contains_all_false query_char); [reflexivity | exact Hq].
  - apply (contains_all_false query_char); [reflexivity | exact Hq].
  - apply (contains_all_false query_char); [reflexivity | exact Hq].
Qed.

Lemma build_success_url_chars_witness :
  exists q,
    SUCCESS_URL = String "?" q
    /\ Str.all query_char q = true
    /\ Str.all Str.isascii SUCCESS_URL = true
    /\ Str.contains " " SUCCESS_URL = false
    /\ Str.contains "#" SUCCESS_URL = false
    /\ Str.contains "?" q = false.
Proof.
  apply (build_success_url_chars (P := ascii_platform) B02KINFO OUTPUT_SECRET
           SUCCESS_URL).
  vm_compute. reflexivity.
Defined.

(** ** No success without a matching signature *)

(** X15.  Whenever [get_redirect_url] returns anything other than the error
    URL it was given, the query decoded, the nine fields were present, and
    the signature in the query equals, character for character, the one
    [calculate_signature] computes from the nine fields and the input secret;
    the value returned is the success URL of those fields. *)
Theorem get_redirect_url_sound {P : Platform}
        (url inputsecret outputsecret error_url s : str) :
  get_redirect_url url inputsecret outputsecret error_url = Ok s ->
  s <> error_url ->
  exists qs f,
    decoded_query url qs
    /\ declare_info qs = Ok f
    /\ dict_get B02K_MAC qs = Some (calculate_signature f inputsecret)
    /\ build_success_url f outputsecret = Ok s.
Proof.
  unfold get_redirect_url. intros H Hne.
  destruct (urllib.urlparse url) as [parsed|e] eqn:Eparse; [|discriminate H].
  cbn [bind] in H.
  destruct (get_qs_dict (urllib.query parsed)) as [qs|e] eqn:Eqs;
    [|discriminate H].
  cbn [bind] in H.
  destruct (declare_info qs) as [f|e] eqn:Ef; [|discriminate H].
  cbn [bind] in H. unfold getitem in H.
  destruct (dict_get B02K_MAC qs) as [mac|] eqn:Emac; [|discriminate H].
  cbn [bind] in H.
  destruct (String.eqb (calculate_signature f inputsecret) mac) eqn:E.
  - apply String.eqb_eq in E. subst mac. exists qs, f.
    split; [exists parsed; split; assumption|]. repeat split; assumption.
  - injection H as <-. congruence.
Qed.

Lemma get_redirect_url_sound_witness :
  exists qs f,
    decoded_query (P := ascii_platform) VALID_URL qs
    /\ declare_info qs = Ok f
    /\ dict_get B02K_MAC qs = Some (calculate_signature f INPUT_SECRET)
    /\ build_success_url (P := ascii_platform) f OUTPUT_SECRET = Ok SUCCESS_URL.
Proof.
  apply (get_redirect_url_sound (P := ascii_platform) VALID_URL INPUT_SECRET
           OUTPUT_SECRET ERROR_URL SUCCESS_URL).
  - vm_compute. reflexivity.
  - discriminate.
Defined.

(** ** Signing, then verifying: the round trip *)

Lemma dict_get_app {V : Type} (d d' : dict V) (k : str) :
  dict_get k (d ++ d')%list
  = match dict_get k d with
    | Some v => Some v
    | None => dict_get k d'
    end.
Proof.
  induction d as [|[k0 v0] d IH]; [reflexivity|].
  cbn [app dict_get]. destruct (String.eqb k0 k); [reflexivity | exact IH].
Qed.

Lemma signed_items_NoDup (f : B02KInfo) (secret : str) :
  NoDup (dict_keys (signed_items f secret)).
Proof.
  change (dict_keys (signed_items f secret)) with (B02K_KEYS ++ [B02K_MAC])%list.
  repeat (constructor; [simpl; intuition discriminate|]). constructor.
Qed.

Lemma signed_items_text (f : B02KInfo) (secret : str) :
  Forall utf8_text (field_values f) -> text_items (signed_items f secret).
Proof.
  intros H. unfold text_items, signed_items. apply Forall_app. split.
  - apply record_items_text, H.
  - constructor; [|constructor]. split.
    + apply ascii_utf8_text. reflexivity.
    + apply calculate_signature_carried.
Qed.

(** The URL written for a record of text decodes to the items that have a
    value, and to the signature. *)
Lemma signed_url_decodes_any {P : Platform} (f : B02KInfo) (secret : str) :
  Forall utf8_text (field_values f) ->
  decoded_query (signed_url f secret) (filter nonblank (signed_items f secret)).
Proof.
  intros Hf. unfold signed_url, signed_query.
  eexists. split; [apply urlparse_someserver, urlencode_chars|].
  cbn [urllib.query].
  apply (get_qs_dict_urlencode_any (signed_items f secret)).
  - apply signed_items_NoDup.
  - apply signed_items_text, Hf.
Qed.

Lemma build_success_url_question {P : Platform} (f : B02KInfo)
      (secret url : str) :
  build_success_url f secret = Ok url -> exists q, url = String "?" q.
Proof.
  unfold build_success_url.
  destruct (format_names (B02K_CUSTNAME f)) as [|first [|last [|x l]]];
    try discriminate.
  intros [= <-]. eexists. reflexivity.
Qed.

(** C1, as amended.  Take a record and the two secrets.

    - When the nine values of the record are non-empty text,
      [get_redirect_url] on the URL whose query is the [urlencode] of the
      nine fields and of the signature key set to [calculate_signature] of
      the record reaches the comparison with that very signature, and its
      result is that of [build_success_url] on the record and the output
      secret.
    - The same result holds on every URL whose decoded query carries the
      nine fields of the record and that signature.
    - That result is the success redirect
      [?firstname=<first>&lastname=<last>&hash=<hash>] whenever
      [format_names] gives a first and a last name for the customer name,
      and it is never an error URL that does not start with ['?'].
    - When a value of the record is empty, the decoder drops its field, and
      the call on the URL written for the record raises the [TypeError] that
      names the field. *)
Theorem signature_round_trip {P : Platform}
        (f : B02KInfo) (inputsecret outputsecret error_url : str) :
  (Forall carried_value (field_values f) ->
   reaches_comparison (signed_url f inputsecret) f
                      (calculate_signature f inputsecret)
   /\ get_redirect_url (signed_url f inputsecret) inputsecret outputsecret
                       error_url
      = build_success_url f outputsecret)
  /\ (forall (url : str) (qs : dict str),
        decoded_query url qs ->
        carries qs f ->
        dict_get B02K_MAC qs = Some (calculate_signature f inputsecret) ->
        get_redirect_url url inputsecret outputsecret error_url
        = build_success_url f outputsecret)
  /\ (forall first last : str,
        format_names (B02K_CUSTNAME f) = [first; last] ->
        build_success_url f outputsecret
        = Ok ("?firstname=" ++ urllib.quote_plus first
              ++ "&lastname=" ++ urllib.quote_plus last
              ++ "&hash=" ++ build_success_hash first last outputsecret))
  /\ ((forall q, error_url <> String "?" q) ->
      build_success_url f outputsecret <> Ok error_url)
  /\ (Forall utf8_text (field_values f) ->
      forall k, dict_get k (record_items f) = Some EmptyString ->
      exists names,
        get_redirect_url (signed_url f inputsecret) inputsecret outputsecret
                         error_url
        = Raise (TypeError_missing names)
        /\ In k names /\ incl names B02K_KEYS).
Proof.
  assert (Hgen : forall (url : str) (qs : dict str),
             decoded_query url qs ->
             carries qs f ->
             dict_get B02K_MAC qs = Some (calculate_signature f inputsecret) ->
             reaches_comparison url f (calculate_signature f inputsecret)).
  { intros url qs Hq Hf Hmac. exists qs.
    split; [exact Hq|]. split; [|exact Hmac].
    apply declare_info_carries, Hf. }
  split; [|split; [|split; [|split]]].
  - intros Hvalues.
    assert (Hreach : reaches_comparison (signed_url f inputsecret) f
                       (calculate_signature f inputsecret)).
    { apply (Hgen _ _ (signed_url_decodes f inputsecret Hvalues));
        destruct f; reflexivity. }
    split; [exact Hreach|]. apply get_redirect_url_match, Hreach.
  - intros url qs Hq Hf Hmac.
    apply get_redirect_url_match, (Hgen url qs Hq Hf Hmac).
  - intros first last Hnames. apply build_success_url_two, Hnames.
  - intros Herr E. destruct (build_success_url_question _ _ _ E) as [q ->].
    exact (Herr q eq_refl).
  - intros Htext k Hk.
    pose proof (signed_url_decodes_any f inputsecret Htext) as Hq.
    assert (Hin : In k B02K_KEYS).
    { apply dict_get_In in Hk. apply (in_map fst) in Hk.
      rewrite <- (record_items_keys f). exact Hk. }
    assert (Hnone : dict_get k (filter nonblank (signed_items f inputsecret))
                    = None).
    { rewrite (dict_get_filter_nonblank _ _ (signed_items_NoDup f inputsecret)).
      unfold signed_items. rewrite dict_get_app, Hk. reflexivity. }
    exists (filter (absent (filter nonblank (signed_items f inputsecret)))
                   B02K_KEYS).
    split; [|split].
    + apply (get_redirect_url_projection_error _ _ _ _ _ _ Hq).
      rewrite declare_info_bind. exact (B02KInfo_bind_missing _ k Hin Hnone).
    + apply filter_In. split; [exact Hin|]. unfold absent. rewrite Hnone.
      reflexivity.
    + intros x Hx. apply filter_In in Hx. apply Hx.
Qed.

Lemma signature_round_trip_witness :
  (get_redirect_url (P := ascii_platform) (signed_url B02KINFO INPUT_SECRET)
                    INPUT_SECRET OUTPUT_SECRET ERROR_URL
   = build_success_url (P := ascii_platform) B02KINFO OUTPUT_SECRET)
  /\ (get_redirect_url (P := ascii_platform) VALID_URL INPUT_SECRET
                       OUTPUT_SECRET ERROR_URL
      = build_success_url (P := ascii_platform) B02KINFO OUTPUT_SECRET)
  /\ build_success_url (P := ascii_platform) B02KINFO OUTPUT_SECRET
     = Ok SUCCESS_URL
  /\ build_success_url (P := ascii_platform) B02KINFO OUTPUT_SECRET
     <> Ok ERROR_URL
  /\ (get_redirect_url (P := ascii_platform)
        (signed_url ONE_NAME_INFO INPUT_SECRET) INPUT_SECRET OUTPUT_SECRET
        ERROR_URL
      = build_success_url (P := ascii_platform) ONE_NAME_INFO OUTPUT_SECRET)
  /\ exists names,
       get_redirect_url (P := ascii_platform)
         (signed_url BLANK_CUSTID_INFO INPUT_SECRET) INPUT_SECRET OUTPUT_SECRET
         ERROR_URL
       = Raise (TypeError_missing names)
       /\ In "B02K_CUSTID" names /\ incl names B02K_KEYS.
Proof.
  destruct (signature_round_trip (P := ascii_platform) B02KINFO INPUT_SECRET
              OUTPUT_SECRET ERROR_URL) as (H1 & H2 & H3 & H4 & _).
  destruct (signature_round_trip (P := ascii_platform) ONE_NAME_INFO
              INPUT_SECRET OUTPUT_SECRET ERROR_URL) as (H1' & _).
  destruct (signature_round_trip (P := ascii_platform) BLANK_CUSTID_INFO
              INPUT_SECRET OUTPUT_SECRET ERROR_URL) as (_ & _ & _ & _ & H5).
  split; [|split; [|split; [|split; [|split]]]].
  - apply H1. repeat constructor; try discriminate; vm_compute; reflexivity.
  - apply (H2 VALID_URL VALID_QS).
    + eexists. split; vm_compute; reflexivity.
    + reflexivity.
    + vm_compute. reflexivity.
  - apply (H3 "First" "Last"). vm_compute. reflexivity.
  - apply H4. intros q. discriminate.
  - apply H1'. repeat constructor; try discriminate; vm_compute; reflexivity.
  - apply (H5 ltac:(repeat constructor) "B02K_CUSTID"). reflexivity.
Defined.
